(** * Bid validation in the exchange

    A shallow embedding of [exchange/bidder_validate_bids.go]: the decorator
    [validatedBidder], the sanitizer [removeInvalidBids] and its two leaf
    checks [validateCurrency] and [validateBid], together with the facts the
    specification states about them.

    Layout of the development:
    - [Go]: the few pieces of the Go language and of its standard library the
      file relies on (strings, [error] values, slices, pointers, panics);
    - [Env]: what is imported from outside the repository
      ([golang.org/x/text/currency], the Unicode path of [strings.ToUpper]) and
      the struct fields declared elsewhere;
    - [openrtb] and [exchange]: the data model and the program;
    - [Sample]: a concrete environment and store to run the program on;
    - [Properties]: the theorems. *)

From Stdlib Require Import String Ascii List Bool Arith PeanoNat ZArith Lia.
From Stdlib Require Import Floats.SpecFloat.
Import ListNotations.

Set Implicit Arguments.
Open Scope string_scope.

(* ================================================================== *)
(** * The Go fragment used by the code *)
(* ================================================================== *)

Module Go.

(** ** Strings (Go strings are byte sequences, as [string] is here) *)

(** The one-character string holding a double quote (byte 34). *)
Definition dquote : string := String (ascii_of_nat 34) EmptyString.

(** Comparison of [s] with the empty string literal. *)
Definition is_empty (s : string) : bool :=
  match s with EmptyString => true | String _ _ => false end.

(** [strings.Join(elems, sep)]. *)
Fixpoint Join (elems : list string) (sep : string) : string :=
  match elems with
  | [] => EmptyString
  | [a] => a
  | a :: rest => a ++ sep ++ Join rest sep
  end.

(** A byte below [utf8.RuneSelf] (0x80). *)
Definition is_ascii_byte (c : ascii) : bool := (nat_of_ascii c <? 128)%nat.

Fixpoint isASCII (s : string) : bool :=
  match s with
  | EmptyString => true
  | String c rest => is_ascii_byte c && isASCII rest
  end.

(** ['a' <= c && c <= 'z'] then [c - ('a' - 'A')]. *)
Definition upper_byte (c : ascii) : ascii :=
  let n := nat_of_ascii c in
  if ((97 <=? n) && (n <=? 122))%nat then ascii_of_nat (n - 32) else c.

Fixpoint map_bytes (f : ascii -> ascii) (s : string) : string :=
  match s with
  | EmptyString => EmptyString
  | String c rest => String (f c) (map_bytes f rest)
  end.

(** [strings.ToUpper]: ASCII-only strings take the byte-wise fast path;
    any other string goes through [strings.Map(unicode.ToUpper, s)], which
    is received as the argument [unicode_upper]. *)
Definition ToUpper (unicode_upper : string -> string) (s : string) : string :=
  if isASCII s then map_bytes upper_byte s else unicode_upper s.

(** [fmt.Sprintf] restricted to what the code uses: formats whose only
    verb is [%s], applied to string operands, one per verb.  A [%s] with no
    operand left prints Go's [%!s(MISSING)]; other verbs and operands in
    excess are outside the model. *)
Fixpoint Sprintf (format : string) (args : list string) : string :=
  match format with
  | EmptyString => EmptyString
  | String c rest =>
      match rest with
      | String d rest' =>
          if (Ascii.eqb c "%"%char && Ascii.eqb d "s"%char)%bool then
            match args with
            | a :: args' => a ++ Sprintf rest' args'
            | [] => "%!s(MISSING)" ++ Sprintf rest' []
            end
          else String c (Sprintf rest args)
      | EmptyString => String c EmptyString
      end
  end.

(** ** The [error] interface: [nil] or a value carrying its message *)

Inductive error : Type :=
| nil_error
| errorString (msg : string).

Definition errors_New (text : string) : error := errorString text.

Definition fmt_Errorf (format : string) (args : list string) : error :=
  errorString (Sprintf format args).

(** [err != nil] *)
Definition is_error (e : error) : bool :=
  match e with nil_error => false | errorString _ => true end.

(** ** Slices: the [nil] slice is kept apart from an empty non-nil one *)

Inductive slice (A : Type) : Type :=
| nil_slice
| mk_slice (elements : list A).
Arguments nil_slice {A}.

Definition elems {A} (s : slice A) : list A :=
  match s with nil_slice => [] | mk_slice l => l end.

Definition len {A} (s : slice A) : nat := length (elems s).

(** [append(s, xs...)]: appending nothing returns [s] itself. *)
Definition append {A} (s : slice A) (xs : list A) : slice A :=
  match xs with
  | [] => s
  | _ :: _ => mk_slice (elems s ++ xs)%list
  end.

(** ** Pointers: [nil] or the address of a live object of type [T] *)

Definition loc := nat.

Inductive ptr (T : Type) : Type :=
| null
| addr (l : loc).
Arguments null {T}.
Arguments addr {T} l.

Definition is_null {T} (p : ptr T) : bool :=
  match p with null => true | addr _ => false end.

(** ** Outcomes: a call returns, or panics (nil dereference) *)

Inductive outcome (A : Type) : Type :=
| Ok (a : A)
| Panic.
Arguments Panic {A}.

(** [float64] values; [0.0] is positive zero. *)
Definition float64 := spec_float.
Definition zero : float64 := S754_zero false.

End Go.
Import Go.

(* ================================================================== *)
(** * What the file imports from outside the repository *)
(* ================================================================== *)

(** The declarations the source relies on but does not contain are taken as
    parameters:
    - [golang.org/x/text/currency]: the type [Unit], [ParseISO] and
      [Unit.String];
    - [unicode_upper]: [strings.Map(unicode.ToUpper, s)], the path
      [strings.ToUpper] takes on a string that is not pure ASCII;
    - the fields of the four structs other than the ones the code names
      ([openrtb.Bid], [openrtb.BidRequest], [PBSOrtbBid], [PBSOrtbSeatBid]);
    - the opaque argument types of [RequestBid]. *)
Class Env : Type := {
  Unit : Type;
  ParseISO : string -> Unit * error;
  Unit_String : Unit -> string;
  unicode_upper : string -> string;
  Bid_fields : Type;
  BidRequest_fields : Type;
  PBSOrtbBid_fields : Type;
  PBSOrtbSeatBid_fields : Type;
  Context_ : Type;
  Conversions : Type
}.

(** [github.com/mxmCherry/openrtb]: the fields of the two structs the code
    reads, and the remaining ones as a block. *)
Module openrtb.
Section Structs.
Context {env : Env}.

Record Bid : Type := {
  ID : string;
  ImpID : string;
  Price : float64;
  CrID : string;
  Bid_rest : Bid_fields
}.

Record BidRequest : Type := {
  Cur : slice string;
  BidRequest_rest : BidRequest_fields
}.
End Structs.
End openrtb.

(* ================================================================== *)
(** * Package exchange *)
(* ================================================================== *)

Module exchange.
Import openrtb.

Section Program.
Context {env : Env}.

(** ** Data model *)

Record PBSOrtbBid : Type := {
  Bid : ptr openrtb.Bid;
  PBSOrtbBid_rest : PBSOrtbBid_fields
}.

Record PBSOrtbSeatBid : Type := {
  Bids : slice (ptr PBSOrtbBid);
  Currency : string;
  PBSOrtbSeatBid_rest : PBSOrtbSeatBid_fields
}.

(** The field assignment [seatBid.Bids = v]. *)
Definition set_Bids (v : slice (ptr PBSOrtbBid)) (sb : PBSOrtbSeatBid)
  : PBSOrtbSeatBid :=
  {| Bids := v; Currency := Currency sb;
     PBSOrtbSeatBid_rest := PBSOrtbSeatBid_rest sb |}.

(** ** The store

    One total map per struct type: Go is memory safe, so a non-nil
    pointer of type [*T] always designates a live [T].  [calls] is a log
    of the invocations of the two leaf checks, appended to at each call
    site; it is what lets a statement say that a check was, or was not,
    run. *)

Inductive call : Type :=
| call_validateCurrency (requestAllowedCurrencies : slice string)
                        (bidCurrency : string)
| call_validateBid (bid : ptr PBSOrtbBid).

Record state : Type := {
  requests : loc -> BidRequest;
  seatbids : loc -> PBSOrtbSeatBid;
  pbsbids : loc -> PBSOrtbBid;
  bids : loc -> openrtb.Bid;
  calls : list call
}.

(** ** Computations: state passing, with panics *)

Definition M (A : Type) : Type := state -> outcome (A * state).

Definition ret {A} (a : A) : M A := fun st => Ok (a, st).

Definition bind {A B} (m : M A) (k : A -> M B) : M B :=
  fun st =>
    match m st with
    | Ok (a, st') => k a st'
    | Panic => Panic
    end.

(** Reading through a pointer: [nil] panics. *)
Definition load {T} (sel : state -> loc -> T) (p : ptr T) : M T :=
  fun st =>
    match p with
    | null => Panic
    | addr l => Ok (sel st l, st)
    end.

(** The store after [l.Bids = v], where [l] is the address of a seat
    bid. *)
Definition assign_Bids (l : loc) (v : slice (ptr PBSOrtbBid))
           (st : state) : state :=
  {| requests := requests st;
     seatbids := fun l' => if Nat.eqb l' l
                           then set_Bids v (seatbids st l')
                           else seatbids st l';
     pbsbids := pbsbids st;
     bids := bids st;
     calls := calls st |}.

(** [p.Bids = v] for [p : *PBSOrtbSeatBid]. *)
Definition store_Bids (p : ptr PBSOrtbSeatBid) (v : slice (ptr PBSOrtbBid))
  : M unit :=
  fun st =>
    match p with
    | null => Panic
    | addr l => Ok (tt, assign_Bids l v st)
    end.

(** The store after one more invocation has been logged. *)
Definition logged (c : call) (st : state) : state :=
  {| requests := requests st; seatbids := seatbids st;
     pbsbids := pbsbids st; bids := bids st;
     calls := (calls st ++ [c])%list |}.

Definition logged_all (cs : list call) (st : state) : state :=
  fold_left (fun s c => logged c s) cs st.

(** A call site: the invocation is logged, then the callee runs. *)
Definition invoke {A} (c : call) (callee : M A) : M A :=
  fun st => callee (logged c st).

Local Notation "x <- m ;; k" := (bind m (fun x => k))
  (at level 100, m at next level, right associativity).
Local Notation "m ;;; k" := (bind m (fun _ => k))
  (at level 100, right associativity).

(** ** validateCurrency *)

(** The loop [for _, allowedCurrency := range requestAllowedCurrencies]
    with its [break]; [currencyAllowed] is the flag it sets. *)
Fixpoint range_allowed (code : string) (allowed : list string)
         (currencyAllowed : bool) : bool :=
  match allowed with
  | [] => currencyAllowed
  | allowedCurrency :: rest =>
      if String.eqb (ToUpper unicode_upper allowedCurrency) code
      then true
      else range_allowed code rest currencyAllowed
  end.

(** The format string of the currency rejection. *)
Definition format_currency : string :=
  "Bid currency is not allowed. Was '%s', wants: ['%s']".

Definition validateCurrency (requestAllowedCurrencies : slice string)
           (bidCurrency : string) : error :=
  let defaultCurrency := "USD" in
  let bidCurrency :=
    if is_empty bidCurrency then defaultCurrency else bidCurrency in
  let '(currencyUnit, cerr) := ParseISO bidCurrency in
  if is_error cerr then cerr
  else
    let requestAllowedCurrencies :=
      if Nat.eqb (len requestAllowedCurrencies) 0
      then mk_slice [defaultCurrency]
      else requestAllowedCurrencies in
    let currencyAllowed :=
      range_allowed (Unit_String currencyUnit)
                    (elems requestAllowedCurrencies) false in
    if Bool.eqb currencyAllowed false
    then fmt_Errorf
           format_currency
           [Unit_String currencyUnit;
            Join (elems requestAllowedCurrencies) "', '"]
    else nil_error.

(** ** validateBid *)

(** The three format strings of [validateBid]; each holds the verb [%s]
    between two double quotes. *)
Definition format_impid : string :=
  "Bid " ++ dquote ++ "%s" ++ dquote ++ " missing required field 'impid'".
Definition format_price : string :=
  "Bid " ++ dquote ++ "%s" ++ dquote
  ++ " does not contain a positive 'price'".
Definition format_crid : string :=
  "Bid " ++ dquote ++ "%s" ++ dquote ++ " missing creative ID".

Definition validateBid (bid : ptr PBSOrtbBid) : M (bool * error) :=
  b <- load pbsbids bid ;;
  if is_null (Bid b)
  then ret (false, errors_New "Empty bid object submitted.")
  else
    o <- load bids (Bid b) ;;
    if is_empty (ID o)
    then ret (false, errors_New "Bid missing required field 'id'")
    else if is_empty (ImpID o)
    then ret (false, fmt_Errorf format_impid [ID o])
    else if SFleb (Price o) zero
    then ret (false, fmt_Errorf format_price [ID o])
    else if is_empty (CrID o)
    then ret (false, fmt_Errorf format_crid [ID o])
    else ret (true, nil_error).

(** ** removeInvalidBids *)

(** The loop [for _, bid := range seatBid.Bids] over the two
    accumulators. *)
Fixpoint range_Bids (l : list (ptr PBSOrtbBid)) (errs : list error)
         (validBids : list (ptr PBSOrtbBid))
  : M (list error * list (ptr PBSOrtbBid)) :=
  match l with
  | [] => ret (errs, validBids)
  | bid :: rest =>
      r <- invoke (call_validateBid bid) (validateBid bid) ;;
      if fst r
      then range_Bids rest errs (validBids ++ [bid])%list
      else range_Bids rest (errs ++ [snd r])%list validBids
  end.

Definition removeInvalidBids (request : ptr BidRequest)
           (seatBid : ptr PBSOrtbSeatBid) : M (slice error) :=
  (* seatBid == nil || len(seatBid.Bids) == 0 *)
  nothing_to_do <- (if is_null seatBid then ret true
                    else sb <- load seatbids seatBid ;;
                         ret (Nat.eqb (len (Bids sb)) 0)) ;;
  if (nothing_to_do : bool) then ret nil_slice
  else
    (* validateCurrency(request.Cur, seatBid.Currency) *)
    req <- load requests request ;;
    sb <- load seatbids seatBid ;;
    cerr <- invoke (call_validateCurrency (Cur req) (Currency sb))
                   (ret (validateCurrency (Cur req) (Currency sb))) ;;
    if is_error cerr
    then store_Bids seatBid nil_slice ;;;
         ret (mk_slice [cerr])
    else
      (* errs and validBids start empty; the loop fills them *)
      sb <- load seatbids seatBid ;;
      r <- range_Bids (elems (Bids sb)) [] [] ;;
      store_Bids seatBid (mk_slice (snd r)) ;;;
      ret (mk_slice (fst r)).

(** ** The decorator *)

(** The interface [AdaptedBidder], and the struct that wraps one.  The
    wrapped value and the receiver are taken non-nil: [ensureValidBids], the
    only constructor, returns the address of a fresh struct. *)
Class AdaptedBidder (B : Type) : Type :=
  RequestBid : B -> Context_ -> ptr BidRequest -> string -> float64 ->
               Conversions -> M (ptr PBSOrtbSeatBid * slice error).

Record validatedBidder (B : Type) : Type := {
  bidder : B
}.

Definition ensureValidBids {B} (b : B) : validatedBidder B :=
  {| bidder := b |}.

#[export] Instance validatedBidder_RequestBid {B} `{AdaptedBidder B}
  : AdaptedBidder (validatedBidder B) :=
  fun v ctx request name bidAdjustment conversions =>
    r <- RequestBid (bidder v) ctx request name bidAdjustment
                    conversions ;;
    validationErrors <- removeInvalidBids request (fst r) ;;
    ret (fst r,
         if Nat.ltb 0 (len validationErrors)
         then append (snd r) (elems validationErrors)
         else snd r).

(** ** Observations

    What a run of [validateBid] on [bid] in the store [st] answers:
    its verdict and its error. *)

Definition accepted (st : state) (bid : ptr PBSOrtbBid) : bool :=
  match validateBid bid st with
  | Ok (r, _) => fst r
  | Panic => false
  end.

Definition rejection (st : state) (bid : ptr PBSOrtbBid) : error :=
  match validateBid bid st with
  | Ok (r, _) => snd r
  | Panic => nil_error
  end.

(** The payload of the bid wrapper at [l], when it has one. *)
Definition payload (st : state) (l : loc) : option openrtb.Bid :=
  match Bid (pbsbids st l) with
  | null => None
  | addr bl => Some (bids st bl)
  end.

(** No element of the bid list is a nil pointer. *)
Definition no_nil (l : list (ptr PBSOrtbBid)) : Prop :=
  Forall (fun bid => bid <> null) l.

(** The accepted list once the default has been substituted. *)
Definition accepted_codes (cur : slice string) : list string :=
  if Nat.eqb (len cur) 0 then ["USD"] else elems cur.

(** What [validateBid] has checked on a bid it accepts. *)
Definition checked (st : state) (bid : ptr PBSOrtbBid) : Prop :=
  exists l o,
    bid = addr l /\ payload st l = Some o
    /\ ID o <> EmptyString /\ ImpID o <> EmptyString
    /\ SFleb (Price o) zero = false /\ CrID o <> EmptyString.

(** [s] between single quotes. *)
Definition quoted (s : string) : string := "'" ++ s ++ "'".

(** [0 < price], the comparison of IEEE 754 (false on a NaN). *)
Definition positive_price (o : openrtb.Bid) : bool :=
  SFltb zero (Price o).

(** The answer of [validateBid] on a bid with a payload, texts rendered. *)
Definition bid_answer (o : openrtb.Bid) : bool * error :=
  if is_empty (ID o)
  then (false, errorString "Bid missing required field 'id'")
  else if is_empty (ImpID o)
  then (false,
        errorString ("Bid " ++ dquote ++ ID o ++ dquote
                     ++ " missing required field 'impid'"))
  else if SFleb (Price o) zero
  then (false,
        errorString ("Bid " ++ dquote ++ ID o ++ dquote
                     ++ " does not contain a positive 'price'"))
  else if is_empty (CrID o)
  then (false,
        errorString ("Bid " ++ dquote ++ ID o ++ dquote
                     ++ " missing creative ID"))
  else (true, nil_error).

(** Two stores hold the same objects (their call logs may differ). *)
Definition same_heap (st st' : state) : Prop :=
  requests st' = requests st
  /\ pbsbids st' = pbsbids st
  /\ bids st' = bids st
  /\ forall l, seatbids st' l = seatbids st l.

(** A bid fit for the auction: a payload with an id, an impression id and
    a creative id, and a price above zero unless it is not a number. *)
Definition well_formed (st : state) (bid : ptr PBSOrtbBid) : Prop :=
  exists l o,
    bid = addr l /\ payload st l = Some o
    /\ ID o <> EmptyString /\ ImpID o <> EmptyString
    /\ CrID o <> EmptyString
    /\ (Price o = S754_nan \/ positive_price o = true).

End Program.
End exchange.

(* ================================================================== *)
(** * A concrete environment and a concrete store *)
(* ================================================================== *)

(** An instance of [Env] to run the program on: a four-entry excerpt of the
    ISO 4217 table behind [ParseISO], no extra struct fields, and the
    scenarios of the specification laid out in one store. *)
Module Sample.
Import openrtb exchange.

Definition table : list string := ["USD"; "EUR"; "GBP"; "JPY"].

Definition is_letter (c : ascii) : bool :=
  let n := nat_of_ascii c in
  (((65 <=? n) && (n <=? 90)) || ((97 <=? n) && (n <=? 122)))%nat.

(** [currency.ParseISO] on the excerpt: three letters, case folded, looked
    up; the zero [Unit] prints as XXX. *)
Definition parse_excerpt (s : string) : string * error :=
  match s with
  | String a (String b (String c EmptyString)) =>
      if is_letter a && is_letter b && is_letter c
      then
        let key := map_bytes upper_byte s in
        if existsb (String.eqb key) table
        then (key, nil_error)
        else ("XXX", errors_New "currency: tag is not a recognized currency")
      else ("XXX", errors_New "currency: tag is not well-formed")
  | _ => ("XXX", errors_New "currency: tag is not well-formed")
  end.

Definition env : Env :=
  {| Unit := string;
     ParseISO := parse_excerpt;
     Unit_String := fun u => u;
     unicode_upper := fun s => s;
     Bid_fields := unit;
     BidRequest_fields := unit;
     PBSOrtbBid_fields := unit;
     PBSOrtbSeatBid_fields := unit;
     Context_ := unit;
     Conversions := unit |}.
#[local] Existing Instance env.

(** 1.5 as a binary64 value. *)
Definition one_and_a_half : float64 :=
  S754_finite false 6755399441055744%positive (-52)%Z.

Definition mkBid (id impid : string) (price : float64) (crid : string)
  : openrtb.Bid :=
  {| ID := id; ImpID := impid; Price := price; CrID := crid;
     Bid_rest := tt |}.

Definition b1 : openrtb.Bid := mkBid "b1" "imp1" one_and_a_half "c1".
Definition b2 : openrtb.Bid := mkBid "b2" "imp1" zero "c2".
Definition b3 : openrtb.Bid := mkBid "b3" "imp1" S754_nan "c3".
Definition b4 : openrtb.Bid := mkBid EmptyString "imp1" zero "c4".

Definition mkSeatBid (l : list (ptr PBSOrtbBid)) (cur : string)
  : PBSOrtbSeatBid :=
  {| Bids := mk_slice l; Currency := cur; PBSOrtbSeatBid_rest := tt |}.

Definition mkRequest (cur : slice string) : BidRequest :=
  {| Cur := cur; BidRequest_rest := tt |}.

(** The store: bid objects 0..3 are [b1]..[b4]; wrapper [l] points to bid
    [l] for [l <= 3] and wrapper 4 has no payload; the seat bids and the
    requests are listed below. *)
Definition st0 : state :=
  {| requests := fun l =>
       match l with
       | 0 => mkRequest (mk_slice ["USD"])
       | 1 => mkRequest (mk_slice ["EUR"])
       | 2 => mkRequest (mk_slice ["eur"; "GBP"; "usd"])
       | _ => mkRequest nil_slice
       end;
     seatbids := fun l =>
       match l with
       | 0 => mkSeatBid [addr 0; addr 1] EmptyString
       | 1 => mkSeatBid [addr 0] "USD"
       | 2 => mkSeatBid [addr 2] "USD"
       | 3 => mkSeatBid [addr 0; null] "USD"
       | 4 => mkSeatBid [addr 1; addr 0; addr 4; addr 3; addr 0] "usd"
       | 5 => mkSeatBid [null] "JPY"
       | _ => mkSeatBid [] "USD"
       end;
     pbsbids := fun l =>
       match l with
       | 4 => {| Bid := null; PBSOrtbBid_rest := tt |}
       | _ => {| Bid := addr l; PBSOrtbBid_rest := tt |}
       end;
     bids := fun l =>
       match l with
       | 0 => b1
       | 1 => b2
       | 2 => b3
       | _ => b4
       end;
     calls := [] |}.

(** The store after the sanitizer has run on request 0 and seat bid 0:
    the currency check and two field validations are logged, and the seat
    bid keeps its first bid. *)
Definition st0_sanitized : state :=
  assign_Bids 0 (mk_slice [addr 0])
    (logged_all [call_validateCurrency (mk_slice ["USD"]) EmptyString;
                 call_validateBid (addr 0);
                 call_validateBid (addr 1)]
                st0).

(** The store after the sanitizer has run on request 1 and seat bid 1. *)
Definition st0_rejected : state :=
  assign_Bids 1 nil_slice
    (logged (call_validateCurrency (mk_slice ["EUR"]) "USD") st0).

(** A store with one bid for each way [validateBid] turns a bid down:
    wrapper 0 has no payload; bids 1 to 4 lack an id, lack an impression
    id, have a zero price, lack a creative id; every other bid is [b1]. *)
Definition b5 : openrtb.Bid := mkBid "b5" EmptyString zero EmptyString.
Definition b6 : openrtb.Bid := mkBid "b6" "imp1" one_and_a_half EmptyString.

Definition st1 : state :=
  {| requests := requests st0;
     seatbids := seatbids st0;
     pbsbids := fun l =>
       match l with
       | 0 => {| Bid := null; PBSOrtbBid_rest := tt |}
       | _ => {| Bid := addr l; PBSOrtbBid_rest := tt |}
       end;
     bids := fun l =>
       match l with
       | 1 => b4
       | 2 => b5
       | 3 => b2
       | 4 => b6
       | _ => b1
       end;
     calls := [] |}.

(** A wrapped bidder: it answers with seat bid [seat] and the transport
    errors [errs], and touches nothing. *)
Record fixedBidder : Type := {
  seat : ptr PBSOrtbSeatBid;
  transport_errs : slice error
}.

#[export] Instance fixedBidder_RequestBid : AdaptedBidder fixedBidder :=
  fun b _ _ _ _ _ => ret (seat b, transport_errs b).

End Sample.

(* ================================================================== *)
(** * Properties *)
(* ================================================================== *)

Module Properties.
Import openrtb exchange.

(** ** Strings *)

Lemma is_empty_true (s : string) : is_empty s = true <-> s = EmptyString.
Proof. destruct s; cbn; split; congruence. Qed.

Lemma is_empty_false (s : string) : is_empty s = false <-> s <> EmptyString.
Proof. destruct s; cbn; split; congruence. Qed.

Lemma append_assoc (a b c : string) : ((a ++ b) ++ c = a ++ (b ++ c))%string.
Proof. induction a as [|x a IH]; cbn; [reflexivity | now rewrite IH]. Qed.

(** Joining with the separator [', '] and wrapping in quotes is quoting each
    element and joining with a comma and a space. *)
Lemma Join_quoted (a : string) (l : list string) :
  ("'" ++ Join (a :: l) "', '" ++ "'")%string
  = Join (map (fun x => "'" ++ x ++ "'")%string (a :: l)) ", ".
Proof.
  revert a; induction l as [|b l IH]; intro a.
  - reflexivity.
  - change (Join (a :: b :: l) "', '")
      with (a ++ "', '" ++ Join (b :: l) "', '")%string.
    change (Join (map (fun x => "'" ++ x ++ "'")%string (a :: b :: l)) ", ")
      with (("'" ++ a ++ "'") ++ ", "
            ++ Join (map (fun x => "'" ++ x ++ "'")%string (b :: l)) ", ")%string.
    rewrite <- IH.
    rewrite !append_assoc. reflexivity.
Qed.

Section Facts.
Context {env : Env}.

(** ** The store transformers *)

Lemma logged_calls c st : calls (logged c st) = (calls st ++ [c])%list.
Proof. reflexivity. Qed.

(** ** validateBid reads the store and leaves it as it is *)

Lemma validateBid_null st : validateBid null st = Panic.
Proof. reflexivity. Qed.

Lemma validateBid_addr l st :
  validateBid (addr l) st
  = Ok ((accepted st (addr l), rejection st (addr l)), st).
Proof.
  unfold accepted, rejection, validateBid, bind, load, ret.
  destruct (Bid (pbsbids st l)); simpl; [reflexivity|].
  repeat match goal with
         | |- context [if ?b then _ else _] => destruct b; simpl
         end; reflexivity.
Qed.

Lemma accepted_logged c st bid :
  accepted (logged c st) bid = accepted st bid.
Proof.
  destruct bid as [|l]; [reflexivity|].
  unfold accepted, validateBid, bind, load, ret, logged; simpl.
  destruct (Bid (pbsbids st l)); simpl; [reflexivity|].
  repeat match goal with
         | |- context [if ?b then _ else _] => destruct b; simpl
         end; reflexivity.
Qed.

Lemma rejection_logged c st bid :
  rejection (logged c st) bid = rejection st bid.
Proof.
  destruct bid as [|l]; [reflexivity|].
  unfold rejection, validateBid, bind, load, ret, logged; simpl.
  destruct (Bid (pbsbids st l)); simpl; [reflexivity|].
  repeat match goal with
         | |- context [if ?b then _ else _] => destruct b; simpl
         end; reflexivity.
Qed.

Lemma filter_accepted_logged c st l :
  filter (accepted (logged c st)) l = filter (accepted st) l.
Proof. apply filter_ext; intro; apply accepted_logged. Qed.

Lemma filter_rejected_logged c st l :
  filter (fun bid => negb (accepted (logged c st) bid)) l
  = filter (fun bid => negb (accepted st bid)) l.
Proof. apply filter_ext; intro; now rewrite accepted_logged. Qed.

Lemma map_rejection_logged c st l :
  map (rejection (logged c st)) l = map (rejection st) l.
Proof. apply map_ext; intro; apply rejection_logged. Qed.

Lemma logged_all_calls cs st :
  calls (logged_all cs st) = (calls st ++ cs)%list.
Proof.
  revert st; induction cs as [|c cs IH]; intro st; cbn.
  - now rewrite app_nil_r.
  - fold (logged_all cs (logged c st)).
    rewrite IH, logged_calls, <- app_assoc. reflexivity.
Qed.

Lemma logged_all_heap cs st :
  requests (logged_all cs st) = requests st
  /\ seatbids (logged_all cs st) = seatbids st
  /\ pbsbids (logged_all cs st) = pbsbids st
  /\ bids (logged_all cs st) = bids st.
Proof.
  revert st; induction cs as [|c cs IH]; intro st; cbn; [tauto|].
  fold (logged_all cs (logged c st)). apply (IH (logged c st)).
Qed.

(** ** The loop over the bids *)

Lemma range_Bids_returns l : forall errs validBids st,
  no_nil l ->
  range_Bids l errs validBids st
  = Ok ((errs ++ map (rejection st)
                     (filter (fun bid => negb (accepted st bid)) l),
         validBids ++ filter (accepted st) l)%list,
        logged_all (map call_validateBid l) st).
Proof.
  induction l as [|bid rest IH]; intros errs validBids st Hnn.
  - cbn. now rewrite !app_nil_r.
  - inversion Hnn as [|? ? Hbid Hrest]; subst.
    destruct bid as [|l]; [congruence|].
    cbn [range_Bids]. unfold bind at 1, invoke.
    rewrite validateBid_addr. cbn [fst snd].
    rewrite accepted_logged, rejection_logged.
    cbn [map filter logged_all fold_left].
    fold (logged_all (map call_validateBid rest)
                     (logged (call_validateBid (addr l)) st)).
    destruct (accepted st (addr l)) eqn:Hacc; cbn [negb];
      rewrite IH by assumption;
      rewrite filter_accepted_logged, filter_rejected_logged,
        map_rejection_logged, <- !app_assoc; reflexivity.
Qed.

Lemma range_Bids_panics l : forall errs validBids st,
  In null l -> range_Bids l errs validBids st = Panic.
Proof.
  induction l as [|bid rest IH]; intros errs validBids st Hin;
    [contradiction|].
  destruct bid as [|l].
  - reflexivity.
  - destruct Hin as [Heq|Hin]; [discriminate|].
    cbn [range_Bids]. unfold bind at 1, invoke.
    rewrite validateBid_addr. cbn [fst snd].
    destruct (accepted _ _); now apply IH.
Qed.

(** ** The paths through removeInvalidBids *)

Section Paths.
Variables (rl sl : loc) (st : state).

Lemma removeInvalidBids_nil request :
  removeInvalidBids request null st = Ok (nil_slice, st).
Proof. reflexivity. Qed.

Lemma removeInvalidBids_no_bids request :
  len (Bids (seatbids st sl)) = 0 ->
  removeInvalidBids request (addr sl) st = Ok (nil_slice, st).
Proof.
  intro H.
  unfold removeInvalidBids, bind, load, ret. cbn.
  now rewrite H.
Qed.

Lemma removeInvalidBids_nil_request :
  len (Bids (seatbids st sl)) <> 0 ->
  removeInvalidBids null (addr sl) st = Panic.
Proof.
  intro H.
  unfold removeInvalidBids, bind, load, ret. cbn.
  apply Nat.eqb_neq in H. now rewrite H.
Qed.

Lemma removeInvalidBids_currency :
  len (Bids (seatbids st sl)) <> 0 ->
  is_error (validateCurrency (Cur (requests st rl))
                             (Currency (seatbids st sl))) = true ->
  removeInvalidBids (addr rl) (addr sl) st
  = Ok (mk_slice [validateCurrency (Cur (requests st rl))
                                   (Currency (seatbids st sl))],
        assign_Bids sl nil_slice
          (logged (call_validateCurrency (Cur (requests st rl))
                                         (Currency (seatbids st sl)))
                  st)).
Proof.
  intros H Hc.
  unfold removeInvalidBids, bind, load, ret, invoke.
  cbn -[validateCurrency range_Bids Nat.eqb].
  apply Nat.eqb_neq in H. rewrite H.
  rewrite Hc. reflexivity.
Qed.

Lemma removeInvalidBids_fields :
  len (Bids (seatbids st sl)) <> 0 ->
  validateCurrency (Cur (requests st rl)) (Currency (seatbids st sl))
  = nil_error ->
  no_nil (elems (Bids (seatbids st sl))) ->
  removeInvalidBids (addr rl) (addr sl) st
  = Ok (mk_slice (map (rejection st)
                      (filter (fun bid => negb (accepted st bid))
                              (elems (Bids (seatbids st sl))))),
        assign_Bids sl
          (mk_slice (filter (accepted st) (elems (Bids (seatbids st sl)))))
          (logged_all
             (call_validateCurrency (Cur (requests st rl))
                                    (Currency (seatbids st sl))
              :: map call_validateBid (elems (Bids (seatbids st sl))))
             st)).
Proof.
  intros H Hc Hnn.
  unfold removeInvalidBids, bind, load, ret, invoke.
  cbn -[validateCurrency range_Bids Nat.eqb].
  apply Nat.eqb_neq in H. rewrite H.
  rewrite Hc. cbn [is_error].
  rewrite range_Bids_returns by assumption. cbn [fst snd app].
  unfold store_Bids.
  rewrite filter_accepted_logged, filter_rejected_logged,
    map_rejection_logged.
  reflexivity.
Qed.

Lemma removeInvalidBids_nil_element :
  len (Bids (seatbids st sl)) <> 0 ->
  validateCurrency (Cur (requests st rl)) (Currency (seatbids st sl))
  = nil_error ->
  In null (elems (Bids (seatbids st sl))) ->
  removeInvalidBids (addr rl) (addr sl) st = Panic.
Proof.
  intros H Hc Hin.
  unfold removeInvalidBids, bind, load, ret, invoke.
  cbn -[validateCurrency range_Bids Nat.eqb].
  apply Nat.eqb_neq in H. rewrite H.
  rewrite Hc. cbn [is_error].
  now rewrite range_Bids_panics.
Qed.

End Paths.

Lemma seatbids_assign sl v st :
  seatbids (assign_Bids sl v st) sl = set_Bids v (seatbids st sl).
Proof. cbn. now rewrite Nat.eqb_refl. Qed.

Lemma seatbids_assign_other sl v st l :
  l <> sl -> seatbids (assign_Bids sl v st) l = seatbids st l.
Proof. intro H. cbn. apply Nat.eqb_neq in H. now rewrite H. Qed.

Lemma no_nil_dec (l : list (ptr PBSOrtbBid)) : no_nil l \/ In null l.
Proof.
  induction l as [|bid rest [IH|IH]].
  - left; constructor.
  - destruct bid as [|a].
    + right; now left.
    + left; constructor; [discriminate | assumption].
  - right; now right.
Qed.

Lemma no_nil_not_in l : no_nil l -> ~ In null l.
Proof.
  intros H Hin. unfold no_nil in H. rewrite Forall_forall in H.
  now apply (H null Hin).
Qed.

Lemma filter_split_length {A} (f : A -> bool) (l : list A) :
  length (filter f l) + length (filter (fun x => negb (f x)) l)
  = length l.
Proof.
  induction l as [|x l IH]; [reflexivity|].
  cbn. destruct (f x); cbn; lia.
Qed.

(** A bid that is turned down comes with an error, never with [nil]. *)
Lemma rejection_is_error st l :
  accepted st (addr l) = false -> is_error (rejection st (addr l)) = true.
Proof.
  unfold accepted, rejection, validateBid, bind, load, ret.
  destruct (Bid (pbsbids st l)); simpl; [reflexivity|].
  repeat match goal with
         | |- context [if ?b then _ else _] => destruct b; simpl
         end; congruence.
Qed.

(* -------------------------------------------------------------- *)
(** ** The sanitizer on a seat bid without bids *)

(** C8.  When the seat bid is nil or its bid list is empty,
    [removeInvalidBids] returns the nil error list and the store it
    was given: the seat bid is untouched and the call log has not grown,
    so [validateCurrency] has not been consulted.  This holds for every
    request pointer, nil included. *)
Theorem C8_nothing_to_do request seatBid st :
  seatBid = null
  \/ (exists sl, seatBid = addr sl /\ len (Bids (seatbids st sl)) = 0) ->
  removeInvalidBids request seatBid st = Ok (nil_slice, st).
Proof.
  intros [->|[sl [-> H]]].
  - apply removeInvalidBids_nil.
  - now apply removeInvalidBids_no_bids.
Qed.

(* -------------------------------------------------------------- *)
(** ** The currency gate *)

(** C2.  On a seat bid with at least one bid, when [validateCurrency]
    on the request's [Cur] and the seat bid's [Currency] answers an
    error, [removeInvalidBids] returns the one-element list holding that
    error, the seat bid's [Bids] is the nil slice afterwards, and the only
    invocation logged is the one of [validateCurrency]: [validateBid] is
    not run, whatever the bids are (a nil element included). *)
Theorem C2_currency_failure_empties_seat_bid rl sl st :
  let sb := seatbids st sl in
  let cerr := validateCurrency (Cur (requests st rl)) (Currency sb) in
  len (Bids sb) <> 0 ->
  is_error cerr = true ->
  exists st',
    removeInvalidBids (addr rl) (addr sl) st = Ok (mk_slice [cerr], st')
    /\ Bids (seatbids st' sl) = nil_slice
    /\ calls st'
       = (calls st
          ++ [call_validateCurrency (Cur (requests st rl)) (Currency sb)])%list
    /\ (forall bid, In (call_validateBid bid) (calls st') ->
                    In (call_validateBid bid) (calls st)).
Proof.
  intros sb cerr Hlen Herr.
  eexists. split; [now apply removeInvalidBids_currency|].
  split; [now rewrite seatbids_assign|].
  split; [reflexivity|].
  intros bid Hin. cbn in Hin. apply in_app_or in Hin.
  destruct Hin as [Hin|[Hin|[]]]; [assumption | discriminate].
Qed.

(* -------------------------------------------------------------- *)
(** ** Field validation of each bid *)

(** C3.  On a seat bid with at least one bid and no nil element, when
    the currency check passes, [removeInvalidBids] returns; the bid list
    left in the seat bid is the input list filtered by the verdict of
    [validateBid] (so in the input order), the error list is the list of
    the errors [validateBid] gives for the bids it turns down, one each
    and none of them nil, and the two lengths add up to the input
    length. *)
Theorem C3_survivors_are_the_valid_bids rl sl st :
  let sb := seatbids st sl in
  len (Bids sb) <> 0 ->
  validateCurrency (Cur (requests st rl)) (Currency sb) = nil_error ->
  no_nil (elems (Bids sb)) ->
  exists errs st',
    removeInvalidBids (addr rl) (addr sl) st = Ok (errs, st')
    /\ elems (Bids (seatbids st' sl)) = filter (accepted st) (elems (Bids sb))
    /\ elems errs
       = map (rejection st)
             (filter (fun bid => negb (accepted st bid)) (elems (Bids sb)))
    /\ Forall (fun e => is_error e = true) (elems errs)
    /\ len (Bids (seatbids st' sl)) + len errs = len (Bids sb).
Proof.
  intros sb Hlen Hcur Hnn.
  do 2 eexists. split; [now apply removeInvalidBids_fields|].
  rewrite seatbids_assign. cbn [set_Bids Bids elems].
  repeat split.
  - apply Forall_forall. intros e He. apply in_map_iff in He.
    destruct He as [bid [<- Hbid]]. apply filter_In in Hbid.
    destruct Hbid as [Hin Hrej]. destruct bid as [|l].
    + now apply no_nil_not_in in Hin.
    + apply rejection_is_error. now destruct (accepted st (addr l)).
  - unfold len. cbn [elems]. rewrite length_map.
    apply filter_split_length.
Qed.

(* -------------------------------------------------------------- *)
(** ** The order of the five checks *)

(** C4.  [validateBid] on a non-nil bid answers after the first check
    that fails, in the order: no payload, empty [ID], empty [ImpID],
    [Price <= 0.0], empty [CrID]; the fields tested by later checks play
    no part (an empty [ID] with a non-positive price gives the missing-id
    error only), and a bid that passes the five is accepted whatever its
    other fields hold.  The store is returned as it was. *)
Theorem C4_first_failing_check_wins st l :
  (Bid (pbsbids st l) = null ->
   validateBid (addr l) st
   = Ok ((false, errors_New "Empty bid object submitted."), st))
  /\ (forall bl, Bid (pbsbids st l) = addr bl ->
      let o := bids st bl in
      (ID o = EmptyString ->
       validateBid (addr l) st
       = Ok ((false, errors_New "Bid missing required field 'id'"), st))
      /\ (ID o = EmptyString -> SFleb (Price o) zero = true ->
          validateBid (addr l) st
          = Ok ((false, errors_New "Bid missing required field 'id'"), st))
      /\ (ID o <> EmptyString -> ImpID o = EmptyString ->
          validateBid (addr l) st
          = Ok ((false, fmt_Errorf format_impid [ID o]), st))
      /\ (ID o <> EmptyString -> ImpID o <> EmptyString ->
          SFleb (Price o) zero = true ->
          validateBid (addr l) st
          = Ok ((false, fmt_Errorf format_price [ID o]), st))
      /\ (ID o <> EmptyString -> ImpID o <> EmptyString ->
          SFleb (Price o) zero = false -> CrID o = EmptyString ->
          validateBid (addr l) st
          = Ok ((false, fmt_Errorf format_crid [ID o]), st))
      /\ (ID o <> EmptyString -> ImpID o <> EmptyString ->
          SFleb (Price o) zero = false -> CrID o <> EmptyString ->
          validateBid (addr l) st = Ok ((true, nil_error), st))).
Proof.
  unfold validateBid, bind, load, ret. split.
  - intros ->. reflexivity.
  - intros bl ->. cbn [is_null].
    repeat split; intros;
      repeat match goal with
             | H : _ = EmptyString |- _ =>
                 apply is_empty_true in H; rewrite H
             | H : _ <> EmptyString |- _ =>
                 apply is_empty_false in H; rewrite H
             | H : SFleb _ _ = _ |- _ => rewrite H
             end; reflexivity.
Qed.

(* -------------------------------------------------------------- *)
(** ** The text of the errors *)

Lemma accepted_codes_cons cur :
  exists a l, accepted_codes cur = a :: l.
Proof.
  unfold accepted_codes, len. destruct (elems cur) as [|a l]; cbn; eauto.
Qed.

Lemma Sprintf_currency (x y : string) :
  Sprintf format_currency [x; y]
  = ("Bid currency is not allowed. Was '" ++ x ++ "', wants: ['"
     ++ y ++ "']")%string.
Proof. reflexivity. Qed.

Lemma currency_message (code : string) (a : string) (l : list string) :
  Sprintf format_currency [code; Join (a :: l) "', '"]
  = ("Bid currency is not allowed. Was '" ++ code ++ "', wants: ["
     ++ Join (map quoted (a :: l)) ", " ++ "]")%string.
Proof.
  rewrite Sprintf_currency. unfold quoted. rewrite <- Join_quoted.
  do 2 f_equal.
  change ("', wants: ['" ++ Join (a :: l) "', '" ++ "']")%string
    with ("', wants: [" ++ ("'" ++ Join (a :: l) "', '" ++ "']"))%string.
  f_equal.
  change "']" with ("'" ++ "]")%string.
  now rewrite !append_assoc.
Qed.

Lemma Sprintf_bid (id : string) :
  Sprintf format_impid [id]
  = ("Bid " ++ dquote ++ id ++ dquote
     ++ " missing required field 'impid'")%string
  /\ Sprintf format_price [id]
     = ("Bid " ++ dquote ++ id ++ dquote
        ++ " does not contain a positive 'price'")%string
  /\ Sprintf format_crid [id]
     = ("Bid " ++ dquote ++ id ++ dquote ++ " missing creative ID")%string.
Proof. repeat split; reflexivity. Qed.

(** No accepted code matches: the loop ends with its flag still false. *)
Lemma range_allowed_none code l :
  (forall a, In a l -> ToUpper unicode_upper a <> code) ->
  range_allowed code l false = false.
Proof.
  induction l as [|a l IH]; intro H; cbn; [reflexivity|].
  destruct (String.eqb (ToUpper unicode_upper a) code) eqn:E.
  - apply String.eqb_eq in E. exfalso. apply (H a); [now left | assumption].
  - apply IH. intros b Hb. apply H. now right.
Qed.

(** Every error [validateCurrency] builds itself, and every error
    [validateBid] answers, has one of the six texts. *)
Lemma errors_have_listed_text :
  (forall cur c u,
      ParseISO (if is_empty c then "USD" else c) = (u, nil_error) ->
      validateCurrency cur c <> nil_error ->
      validateCurrency cur c
      = errorString
          ("Bid currency is not allowed. Was '" ++ Unit_String u
           ++ "', wants: [" ++ Join (map quoted (accepted_codes cur)) ", "
           ++ "]"))
  /\ (forall st l,
        accepted st (addr l) = false ->
        match payload st l with
        | None =>
            rejection st (addr l)
            = errorString "Empty bid object submitted."
        | Some o =>
            rejection st (addr l)
            = errorString
                (if is_empty (ID o)
                 then "Bid missing required field 'id'"
                 else if is_empty (ImpID o)
                 then "Bid " ++ dquote ++ ID o ++ dquote
                      ++ " missing required field 'impid'"
                 else if SFleb (Price o) zero
                 then "Bid " ++ dquote ++ ID o ++ dquote
                      ++ " does not contain a positive 'price'"
                 else "Bid " ++ dquote ++ ID o ++ dquote
                      ++ " missing creative ID")
        end).
Proof.
  split.
  - intros cur c u Hparse Hrej. revert Hrej.
    unfold validateCurrency. rewrite Hparse. cbn [is_error].
    destruct (accepted_codes_cons cur) as [a [l Hal]].
    unfold accepted_codes in *.
    destruct (Nat.eqb (len cur) 0); cbn [elems] in *; rewrite Hal;
      (destruct (range_allowed _ _ _); cbn [Bool.eqb];
       [congruence | intros _; unfold fmt_Errorf;
                     now rewrite currency_message]).
  - intros st l. unfold accepted, rejection, payload, validateBid.
    unfold bind, load, ret.
    destruct (Bid (pbsbids st l)); simpl; [reflexivity|].
    destruct (Sprintf_bid (ID (bids st l0))) as [Hi [Hp Hc]].
    unfold fmt_Errorf. rewrite Hi, Hp, Hc.
    destruct (is_empty (ID _)); simpl; [reflexivity|].
    destruct (is_empty (ImpID _)); simpl; [reflexivity|].
    destruct (SFleb _ _); simpl; [reflexivity|].
    destruct (is_empty (CrID _)); simpl; [reflexivity|discriminate].
Qed.

(** The currency rejection, as [validateCurrency] produces it. *)
Lemma currency_rejection_text cur c u :
  ParseISO (if is_empty c then "USD" else c) = (u, nil_error) ->
  (forall a, In a (accepted_codes cur) ->
             ToUpper unicode_upper a <> Unit_String u) ->
  validateCurrency cur c
  = errorString
      ("Bid currency is not allowed. Was '" ++ Unit_String u
       ++ "', wants: [" ++ Join (map quoted (accepted_codes cur)) ", "
       ++ "]").
Proof.
  intros Hparse Hnone. apply range_allowed_none in Hnone.
  unfold validateCurrency. rewrite Hparse. cbn [is_error].
  destruct (accepted_codes_cons cur) as [a [l Hal]].
  unfold accepted_codes in *.
  destruct (Nat.eqb (len cur) 0); cbn [elems] in *;
    rewrite Hnone; cbn [Bool.eqb]; rewrite Hal;
    unfold fmt_Errorf; now rewrite currency_message.
Qed.

(** A currency that does not parse: the parser's error comes back as it
    is, whatever the accepted list. *)
Lemma currency_parse_error cur c u e :
  ParseISO (if is_empty c then "USD" else c) = (u, e) ->
  is_error e = true ->
  validateCurrency cur c = e.
Proof.
  intros Hparse He. unfold validateCurrency. rewrite Hparse.
  cbn iota beta. now rewrite He.
Qed.

Lemma validateBid_texts st l :
  validateBid (addr l) st
  = Ok (match payload st l with
        | None => (false, errorString "Empty bid object submitted.")
        | Some o => bid_answer o
        end, st).
Proof.
  unfold payload, bid_answer, validateBid, bind, load, ret.
  destruct (Bid (pbsbids st l)) as [|bl]; simpl; [reflexivity|].
  destruct (Sprintf_bid (ID (bids st bl))) as [Hi [Hp Hc]].
  unfold fmt_Errorf. rewrite Hi, Hp, Hc.
  destruct (is_empty (ID _)); simpl; [reflexivity|].
  destruct (is_empty (ImpID _)); simpl; [reflexivity|].
  destruct (SFleb _ _); simpl; [reflexivity|].
  destruct (is_empty (CrID _)); simpl; reflexivity.
Qed.

(** C7.  The text of each validation error, as the code produces it.
    - Currency: when the bid currency parses to the unit [u] and no
      accepted code (the list of the request, or USD alone when that list is
      empty) upper-cases to the code of [u], [validateCurrency] returns the
      error whose text is
      [Bid currency is not allowed. Was 'CODE', wants: ['A', 'B', ...]],
      with [CODE] the code of [u] and the accepted codes each between single
      quotes and separated by a comma and a space.  (A currency that does
      not parse gives back the parser's own error, which is none of the six
      kinds.)
    - Bids: [validateBid] on a wrapper without payload answers the
      empty-bid text; on a payload it answers, by the first check that
      fails, the missing-id text, or the text for a missing impid, a
      non-positive price or a missing creative id with the bid's id between
      double quotes; and it accepts, with no error, exactly when no check
      fails.
    - Conversely every error [validateCurrency] builds and every error
      [validateBid] answers has one of these six texts. *)
Theorem C7_error_messages :
  (forall cur c u,
      ParseISO (if is_empty c then "USD" else c) = (u, nil_error) ->
      (forall a, In a (accepted_codes cur) ->
                 ToUpper unicode_upper a <> Unit_String u) ->
      validateCurrency cur c
      = errorString
          ("Bid currency is not allowed. Was '" ++ Unit_String u
           ++ "', wants: [" ++ Join (map quoted (accepted_codes cur)) ", "
           ++ "]"))
  /\ (forall cur c u e,
        ParseISO (if is_empty c then "USD" else c) = (u, e) ->
        is_error e = true ->
        validateCurrency cur c = e)
  /\ (forall st l,
        payload st l = None ->
        validateBid (addr l) st
        = Ok ((false, errorString "Empty bid object submitted."), st))
  /\ (forall st l o,
        payload st l = Some o ->
        validateBid (addr l) st
        = Ok (if is_empty (ID o)
              then (false, errorString "Bid missing required field 'id'")
              else if is_empty (ImpID o)
              then (false,
                    errorString ("Bid " ++ dquote ++ ID o ++ dquote
                                 ++ " missing required field 'impid'"))
              else if SFleb (Price o) zero
              then (false,
                    errorString ("Bid " ++ dquote ++ ID o ++ dquote
                                 ++ " does not contain a positive 'price'"))
              else if is_empty (CrID o)
              then (false,
                    errorString ("Bid " ++ dquote ++ ID o ++ dquote
                                 ++ " missing creative ID"))
              else (true, nil_error),
              st))
  /\ (forall cur c u,
        ParseISO (if is_empty c then "USD" else c) = (u, nil_error) ->
        validateCurrency cur c <> nil_error ->
        validateCurrency cur c
        = errorString
            ("Bid currency is not allowed. Was '" ++ Unit_String u
             ++ "', wants: [" ++ Join (map quoted (accepted_codes cur)) ", "
             ++ "]"))
  /\ (forall st l,
        accepted st (addr l) = false ->
        match payload st l with
        | None =>
            rejection st (addr l)
            = errorString "Empty bid object submitted."
        | Some o =>
            rejection st (addr l)
            = errorString
                (if is_empty (ID o)
                 then "Bid missing required field 'id'"
                 else if is_empty (ImpID o)
                 then "Bid " ++ dquote ++ ID o ++ dquote
                      ++ " missing required field 'impid'"
                 else if SFleb (Price o) zero
                 then "Bid " ++ dquote ++ ID o ++ dquote
                      ++ " does not contain a positive 'price'"
                 else "Bid " ++ dquote ++ ID o ++ dquote
                      ++ " missing creative ID")
        end).
Proof.
  split; [exact currency_rejection_text|].
  split; [exact currency_parse_error|].
  split; [|split; [|exact errors_have_listed_text]].
  - intros st l Hpay. rewrite validateBid_texts, Hpay. reflexivity.
  - intros st l o Hpay. rewrite validateBid_texts, Hpay. reflexivity.
Qed.

(* -------------------------------------------------------------- *)
(** ** The default currency *)

(** C6.  [validateCurrency] reads an empty bid currency as USD and an
    empty accepted list (nil or of length 0) as the list holding USD
    alone; so, as soon as [ParseISO] knows USD under that code, an empty
    accepted list lets through a seat bid that declares no currency or
    declares USD. *)
Theorem C6_default_currency u :
  ParseISO "USD" = (u, nil_error) ->
  Unit_String u = "USD" ->
  (forall cur, validateCurrency cur EmptyString = validateCurrency cur "USD")
  /\ (forall cur c,
        len cur = 0 ->
        validateCurrency cur c = validateCurrency (mk_slice ["USD"]) c)
  /\ (forall cur,
        len cur = 0 ->
        validateCurrency cur EmptyString = nil_error
        /\ validateCurrency cur "USD" = nil_error).
Proof.
  intros Hparse Hcode.
  assert (Hsub : forall cur c,
             len cur = 0 ->
             validateCurrency cur c = validateCurrency (mk_slice ["USD"]) c).
  { intros cur c Hlen. unfold validateCurrency.
    destruct (ParseISO _) as [unit cerr]. now rewrite Hlen. }
  assert (Hpass : validateCurrency (mk_slice ["USD"]) "USD" = nil_error).
  { unfold validateCurrency. cbn [is_empty]. rewrite Hparse.
    cbn [is_error len elems length Nat.eqb range_allowed].
    rewrite Hcode. reflexivity. }
  split; [reflexivity|]. split; [exact Hsub|].
  intros cur Hlen. split.
  - change (validateCurrency cur EmptyString)
      with (validateCurrency cur "USD").
    now rewrite Hsub.
  - now rewrite Hsub.
Qed.

(* -------------------------------------------------------------- *)
(** ** The decorator *)

(** C5.  When the wrapped bidder returns the seat bid [seatBid] with
    the errors [errs], and the sanitizer run on that seat bid returns
    [verrs], the decorator returns the same seat-bid pointer with an error
    list whose elements are those of [errs] followed by those of [verrs]
    ([errs] itself when there is no validation error), in the store the
    sanitizer left: nothing else is read or written. *)
Theorem C5_decorator_appends_validation_errors
        (B : Type) (wrapped : AdaptedBidder B) (v : validatedBidder B)
        ctx request name bidAdjustment conversions
        st seatBid errs st1 verrs st2 :
  RequestBid (bidder v) ctx request name bidAdjustment conversions st
  = Ok ((seatBid, errs), st1) ->
  removeInvalidBids request seatBid st1 = Ok (verrs, st2) ->
  exists errs',
    RequestBid v ctx request name bidAdjustment conversions st
    = Ok ((seatBid, errs'), st2)
    /\ elems errs' = (elems errs ++ elems verrs)%list
    /\ (len verrs = 0 -> errs' = errs).
Proof.
  intros Hwrapped Hsan.
  unfold RequestBid at 1, validatedBidder_RequestBid, bind, ret.
  rewrite Hwrapped. cbn [fst snd]. rewrite Hsan.
  eexists. split; [reflexivity|].
  unfold len. destruct (elems verrs) as [|e rest]; cbn.
  - rewrite app_nil_r. split; [reflexivity | reflexivity].
  - split; [reflexivity | discriminate].
Qed.

(** A panic of the wrapped bidder or of the sanitizer is a panic of the
    decorator. *)
Lemma decorator_panics
      (B : Type) (wrapped : AdaptedBidder B) (v : validatedBidder B)
      ctx request name bidAdjustment conversions st :
  RequestBid (bidder v) ctx request name bidAdjustment conversions st
  = Panic
  \/ (exists seatBid errs st1,
        RequestBid (bidder v) ctx request name bidAdjustment conversions st
        = Ok ((seatBid, errs), st1)
        /\ removeInvalidBids request seatBid st1 = Panic) ->
  RequestBid v ctx request name bidAdjustment conversions st = Panic.
Proof.
  unfold RequestBid at 3, validatedBidder_RequestBid, bind, ret.
  intros [H|[seatBid [errs [st1 [H1 H2]]]]].
  - now rewrite H.
  - rewrite H1. cbn [fst]. now rewrite H2.
Qed.

(* -------------------------------------------------------------- *)
(** ** Every run of the sanitizer *)

(** The four ways a run ends: nothing to do, a panic, the currency
    gate, the field validation. *)
Lemma removeInvalidBids_cases request seatBid st :
  ((seatBid = null
    \/ exists sl, seatBid = addr sl /\ len (Bids (seatbids st sl)) = 0)
   /\ removeInvalidBids request seatBid st = Ok (nil_slice, st))
  \/ removeInvalidBids request seatBid st = Panic
  \/ (exists rl sl cerr c,
        request = addr rl /\ seatBid = addr sl
        /\ removeInvalidBids request seatBid st
           = Ok (mk_slice [cerr],
                 assign_Bids sl nil_slice (logged_all [c] st)))
  \/ (exists rl sl cs,
        request = addr rl /\ seatBid = addr sl
        /\ removeInvalidBids request seatBid st
           = Ok (mk_slice
                   (map (rejection st)
                        (filter (fun bid => negb (accepted st bid))
                                (elems (Bids (seatbids st sl))))),
                 assign_Bids sl
                   (mk_slice (filter (accepted st)
                                     (elems (Bids (seatbids st sl)))))
                   (logged_all cs st))).
Proof.
  destruct seatBid as [|sl]; [left; split; [now left | reflexivity]|].
  destruct (Nat.eq_dec (len (Bids (seatbids st sl))) 0) as [Hlen|Hlen];
    [left; split; [right; now exists sl
                  | now apply removeInvalidBids_no_bids]|].
  destruct request as [|rl];
    [right; left; now apply removeInvalidBids_nil_request|].
  destruct (validateCurrency (Cur (requests st rl))
                             (Currency (seatbids st sl))) eqn:Hcur.
  - destruct (no_nil_dec (elems (Bids (seatbids st sl)))) as [Hnn|Hin].
    + do 3 right. exists rl, sl. eexists. do 2 (split; [reflexivity|]).
      now apply removeInvalidBids_fields.
    + right; left. now apply removeInvalidBids_nil_element.
  - right; right; left.
    exists rl, sl,
      (validateCurrency (Cur (requests st rl)) (Currency (seatbids st sl))),
      (call_validateCurrency (Cur (requests st rl))
                             (Currency (seatbids st sl))).
    do 2 (split; [reflexivity|]).
    apply removeInvalidBids_currency; [assumption|].
    now rewrite Hcur.
Qed.

(* -------------------------------------------------------------- *)
(** ** What the sanitizer writes *)

(** C9.  After a run of [removeInvalidBids] that returns, the requests,
    the bid wrappers and the bid payloads are the ones of the store
    before; every seat bid has kept its [Currency] and its other fields;
    every seat bid other than the argument is unchanged; and the new bid
    list of the argument holds pointers of the old one only. *)
Theorem C9_only_the_bid_list_is_written request seatBid st errs st' :
  removeInvalidBids request seatBid st = Ok (errs, st') ->
  requests st' = requests st
  /\ pbsbids st' = pbsbids st
  /\ bids st' = bids st
  /\ (forall l,
        Currency (seatbids st' l) = Currency (seatbids st l)
        /\ PBSOrtbSeatBid_rest (seatbids st' l)
           = PBSOrtbSeatBid_rest (seatbids st l)
        /\ incl (elems (Bids (seatbids st' l)))
                (elems (Bids (seatbids st l))))
  /\ (forall l, seatBid <> addr l -> seatbids st' l = seatbids st l).
Proof.
  intro Hrun.
  assert (Hframe : forall sl v cs,
             incl (elems v) (elems (Bids (seatbids st sl))) ->
             st' = assign_Bids sl v (logged_all cs st) ->
             seatBid = addr sl ->
             requests st' = requests st
             /\ pbsbids st' = pbsbids st
             /\ bids st' = bids st
             /\ (forall l,
                   Currency (seatbids st' l) = Currency (seatbids st l)
                   /\ PBSOrtbSeatBid_rest (seatbids st' l)
                      = PBSOrtbSeatBid_rest (seatbids st l)
                   /\ incl (elems (Bids (seatbids st' l)))
                           (elems (Bids (seatbids st l))))
             /\ (forall l, seatBid <> addr l ->
                           seatbids st' l = seatbids st l)).
  { intros sl v cs Hincl -> ->.
    destruct (logged_all_heap cs st) as [Hr [Hs [Hp Hb]]].
    cbn [assign_Bids requests pbsbids bids seatbids].
    rewrite Hr, Hs, Hp, Hb. repeat split; try reflexivity.
    - destruct (Nat.eqb l sl); reflexivity.
    - destruct (Nat.eqb l sl); reflexivity.
    - destruct (Nat.eqb l sl) eqn:E; cbn [set_Bids Bids].
      + apply Nat.eqb_eq in E. now subst l.
      + apply incl_refl.
    - intros l Hne. destruct (Nat.eqb l sl) eqn:E; [|reflexivity].
      apply Nat.eqb_eq in E. now subst l. }
  destruct (removeInvalidBids_cases request seatBid st)
    as [[_ H]|[H|[[rl [sl [cerr [c [-> [-> H]]]]]]
                  |[rl [sl [cs [-> [-> H]]]]]]]];
    rewrite H in Hrun; try discriminate;
    injection Hrun as <- <-.
  - repeat split; try reflexivity. apply incl_refl.
  - apply (Hframe sl nil_slice [c]); [|reflexivity|reflexivity].
    intros x [].
  - apply (Hframe sl (mk_slice (filter (accepted st)
                                       (elems (Bids (seatbids st sl)))))
                  cs); [|reflexivity|reflexivity].
    cbn [elems]. apply incl_filter.
Qed.

(* -------------------------------------------------------------- *)
(** ** Nil elements of the bid list *)

(** C10.  [validateBid] dereferences its argument before it looks at
    the payload: on a nil bid pointer it panics, in every store, and does
    not answer the empty-bid error.  So [removeInvalidBids], given a
    request, returns on every seat bid whose bid list has no nil element,
    and panics as soon as the loop is reached (currency accepted) on a
    list that has one. *)
Theorem C10_nil_element_is_outside_the_domain :
  (forall st, validateBid null st = Panic)
  /\ (forall rl sl st,
        no_nil (elems (Bids (seatbids st sl))) ->
        exists errs st',
          removeInvalidBids (addr rl) (addr sl) st = Ok (errs, st'))
  /\ (forall rl sl st,
        validateCurrency (Cur (requests st rl)) (Currency (seatbids st sl))
        = nil_error ->
        In null (elems (Bids (seatbids st sl))) ->
        removeInvalidBids (addr rl) (addr sl) st = Panic).
Proof.
  split; [reflexivity|]. split.
  - intros rl sl st Hnn.
    destruct (Nat.eq_dec (len (Bids (seatbids st sl))) 0) as [Hlen|Hlen].
    + do 2 eexists. now apply removeInvalidBids_no_bids.
    + destruct (validateCurrency (Cur (requests st rl))
                                 (Currency (seatbids st sl))) eqn:Hcur.
      * do 2 eexists. now apply removeInvalidBids_fields.
      * do 2 eexists. apply removeInvalidBids_currency; [assumption|].
        now rewrite Hcur.
  - intros rl sl st Hcur Hin.
    apply removeInvalidBids_nil_element; [|assumption|assumption].
    unfold len. destruct (elems (Bids (seatbids st sl)));
      [contradiction | discriminate].
Qed.

(* -------------------------------------------------------------- *)
(** ** The bids that survive *)

Lemma accepted_checked st bid : accepted st bid = true -> checked st bid.
Proof.
  destruct bid as [|l]; [discriminate|].
  unfold accepted, checked, payload, validateBid, bind, load, ret.
  destruct (Bid (pbsbids st l)) as [|bl] eqn:Hb; simpl; [discriminate|].
  destruct (is_empty (ID _)) eqn:H1; simpl; [discriminate|].
  destruct (is_empty (ImpID _)) eqn:H2; simpl; [discriminate|].
  destruct (SFleb _ _) eqn:H3; simpl; [discriminate|].
  destruct (is_empty (CrID _)) eqn:H4; simpl; [discriminate|].
  intros _. exists l, (bids st bl).
  rewrite Hb.
  repeat split; try assumption; now apply is_empty_false.
Qed.

Lemma checked_same_heap st st' bid :
  pbsbids st' = pbsbids st -> bids st' = bids st ->
  checked st bid -> checked st' bid.
Proof.
  intros Hp Hb [l [o H]]. exists l, o. unfold payload in *.
  now rewrite Hp, Hb.
Qed.

(** Every bid left in the seat bid by a run that returns has a payload,
    an id, an impression id and a creative id, and a price that fails
    [Price <= 0.0]. *)
Lemma survivors_checked request sl st errs st' :
  removeInvalidBids request (addr sl) st = Ok (errs, st') ->
  Forall (checked st') (elems (Bids (seatbids st' sl))).
Proof.
  intro Hrun.
  destruct (removeInvalidBids_cases request (addr sl) st)
    as [[Hlen H]|[H|[[rl [sl' [cerr [c [-> [E H]]]]]]
                     |[rl [sl' [cs [-> [E H]]]]]]]];
    rewrite H in Hrun; try discriminate;
    injection Hrun as <- <-.
  - destruct Hlen as [Hlen|[sl' [E Hlen]]]; [discriminate|].
    injection E as <-. unfold len in Hlen.
    destruct (elems (Bids (seatbids st sl))); [constructor|discriminate].
  - injection E as <-. rewrite seatbids_assign. constructor.
  - injection E as <-. rewrite seatbids_assign. cbn [set_Bids Bids elems].
    apply Forall_forall. intros bid Hin. apply filter_In in Hin.
    destruct Hin as [_ Hacc]. apply accepted_checked in Hacc.
    destruct (logged_all_heap cs st) as [_ [_ [Hp Hb]]].
    eapply checked_same_heap; [| |exact Hacc]; cbn; assumption.
Qed.

(** On a price that is a number, failing [Price <= 0.0] is being
    positive. *)
Lemma not_le_zero_positive (p : float64) :
  p <> S754_nan -> SFleb p zero = false -> SFltb zero p = true.
Proof.
  destruct p as [sg|sg| |sg m e]; try destruct sg; cbn;
    congruence.
Qed.

End Facts.

(* ---------------------------------------------------------------- *)
(** ** Runs on the sample store *)

Import Sample.
#[local] Existing Instance Sample.env.

(** The scenarios of the specification. *)

Example scenario_one_valid_one_invalid :
  removeInvalidBids (addr 0) (addr 0) st0
  = Ok (mk_slice
          [errorString ("Bid " ++ dquote ++ "b2" ++ dquote
                        ++ " does not contain a positive 'price'")],
        st0_sanitized)
  /\ Bids (seatbids st0_sanitized 0) = mk_slice [addr 0].
Proof. split; reflexivity. Qed.

Example scenario_currency_rejected :
  removeInvalidBids (addr 1) (addr 1) st0
  = Ok (mk_slice
          [errorString
             "Bid currency is not allowed. Was 'USD', wants: ['EUR']"],
        st0_rejected)
  /\ Bids (seatbids st0_rejected 1) = nil_slice.
Proof. split; reflexivity. Qed.

Example scenario_default_on_both_sides :
  validateCurrency (mk_slice []) "USD" = nil_error
  /\ validateCurrency nil_slice "USD" = nil_error.
Proof. split; reflexivity. Qed.

(** C1.  The claim that every surviving bid has a price above zero fails
    on a price that is not a number: the bid [b3] (id, impression id and
    creative id set, price NaN) passes [Price <= 0.0], so a run on the seat
    bid that holds it returns no error and leaves it in the bid list, with
    a price for which [0 < Price] is false. *)
Theorem C1_nan_priced_bid_survives :
  exists st',
    removeInvalidBids (addr 0) (addr 2) st0 = Ok (mk_slice [], st')
    /\ elems (Bids (seatbids st' 2)) = [addr 2]
    /\ payload st' 2 = Some b3
    /\ Price b3 = S754_nan
    /\ positive_price b3 = false.
Proof. eexists. repeat split. Qed.

(** The theorems above at work on the sample store. *)

Lemma C8_witness :
  removeInvalidBids null (addr 6) st0 = Ok (nil_slice, st0).
Proof.
  apply C8_nothing_to_do. right. exists 6. split; reflexivity.
Defined.

Lemma C2_witness :
  exists st',
    removeInvalidBids (addr 1) (addr 5) st0
    = Ok (mk_slice
            [errorString
               "Bid currency is not allowed. Was 'JPY', wants: ['EUR']"],
          st')
    /\ Bids (seatbids st' 5) = nil_slice.
Proof.
  destruct (@C2_currency_failure_empties_seat_bid Sample.env 1 5 st0)
    as [st' [Hrun [Hbids _]]].
  - discriminate.
  - reflexivity.
  - exists st'. split; assumption.
Defined.

Lemma C3_witness :
  exists errs st',
    removeInvalidBids (addr 2) (addr 4) st0 = Ok (errs, st')
    /\ elems (Bids (seatbids st' 4)) = [addr 0; addr 0]
    /\ len errs = 3.
Proof.
  destruct (@C3_survivors_are_the_valid_bids Sample.env 2 4 st0)
    as [errs [st' [Hrun [Hbids [Herrs _]]]]].
  - discriminate.
  - reflexivity.
  - repeat constructor; discriminate.
  - exists errs, st'. repeat split; try assumption.
    unfold len. now rewrite Herrs.
Defined.

Lemma C4_witness :
  validateBid (addr 3) st0
  = Ok ((false, errors_New "Bid missing required field 'id'"), st0).
Proof.
  destruct (@C4_first_failing_check_wins Sample.env st0 3) as [_ H].
  destruct (H 3 eq_refl) as [_ [Hboth _]].
  apply Hboth; reflexivity.
Defined.

Lemma C5_witness :
  exists errs',
    RequestBid
      (ensureValidBids
         {| seat := addr 0;
            transport_errs := mk_slice [errors_New "timeout"] |})
      tt (addr 0) "appnexus" zero tt st0
    = Ok ((addr 0, errs'), st0_sanitized)
    /\ elems errs' = [errors_New "timeout"; rejection st0 (addr 1)].
Proof.
  destruct (@C5_decorator_appends_validation_errors
              Sample.env fixedBidder fixedBidder_RequestBid
              (ensureValidBids
                 {| seat := addr 0;
                    transport_errs := mk_slice [errors_New "timeout"] |})
              tt (addr 0) "appnexus" zero tt
              st0 (addr 0) (mk_slice [errors_New "timeout"]) st0
              (mk_slice [rejection st0 (addr 1)]) st0_sanitized)
    as [errs' [Hrun [Herrs _]]].
  - reflexivity.
  - reflexivity.
  - exists errs'. split; assumption.
Defined.

Lemma C6_witness :
  validateCurrency nil_slice EmptyString = nil_error
  /\ validateCurrency (mk_slice []) "USD" = nil_error.
Proof.
  destruct (@C6_default_currency Sample.env "USD" eq_refl eq_refl)
    as [_ [_ H]].
  split; apply H; reflexivity.
Defined.

Lemma C7_witness :
  validateCurrency (mk_slice ["eur"; "GBP"]) "usd"
  = errorString
      "Bid currency is not allowed. Was 'USD', wants: ['eur', 'GBP']"
  /\ validateBid (addr 0) st1
     = Ok ((false, errorString "Empty bid object submitted."), st1)
  /\ validateBid (addr 1) st1
     = Ok ((false, errorString "Bid missing required field 'id'"), st1)
  /\ validateBid (addr 2) st1
     = Ok ((false,
            errorString ("Bid " ++ dquote ++ "b5" ++ dquote
                         ++ " missing required field 'impid'")), st1)
  /\ validateBid (addr 3) st1
     = Ok ((false,
            errorString ("Bid " ++ dquote ++ "b2" ++ dquote
                         ++ " does not contain a positive 'price'")), st1)
  /\ validateBid (addr 4) st1
     = Ok ((false,
            errorString ("Bid " ++ dquote ++ "b6" ++ dquote
                         ++ " missing creative ID")), st1)
  /\ validateBid (addr 5) st1 = Ok ((true, nil_error), st1).
Proof.
  destruct (@C7_error_messages Sample.env) as [Hcur [_ [Hnone [Hsome _]]]].
  split.
  - apply (Hcur (mk_slice ["eur"; "GBP"]) "usd" "USD").
    + reflexivity.
    + intros a [<-|[<-|[]]]; discriminate.
  - split; [apply (Hnone st1 0); reflexivity|].
    split; [apply (Hsome st1 1 b4); reflexivity|].
    split; [apply (Hsome st1 2 b5); reflexivity|].
    split; [apply (Hsome st1 3 b2); reflexivity|].
    split; [apply (Hsome st1 4 b6); reflexivity|].
    apply (Hsome st1 5 b1); reflexivity.
Defined.

Lemma C9_witness :
  requests st0_sanitized = requests st0
  /\ pbsbids st0_sanitized = pbsbids st0
  /\ bids st0_sanitized = bids st0
  /\ Currency (seatbids st0_sanitized 0) = Currency (seatbids st0 0)
  /\ seatbids st0_sanitized 1 = seatbids st0 1.
Proof.
  destruct (@C9_only_the_bid_list_is_written
              Sample.env (addr 0) (addr 0) st0
              (mk_slice [rejection st0 (addr 1)]) st0_sanitized)
    as [Hr [Hp [Hb [Hs Ho]]]].
  - reflexivity.
  - split; [exact Hr|]. split; [exact Hp|]. split; [exact Hb|].
    split; [exact (proj1 (Hs 0))|].
    apply Ho. discriminate.
Defined.

Lemma C10_witness :
  removeInvalidBids (addr 0) (addr 3) st0 = Panic.
Proof.
  destruct (@C10_nil_element_is_outside_the_domain Sample.env)
    as [_ [_ H]].
  apply H.
  - reflexivity.
  - right. left. reflexivity.
Defined.

End Properties.

(* ================================================================== *)
(** * Further properties of the sanitizer, the currency check and the
      decorator *)
(* ================================================================== *)

Module Extra.
Import openrtb exchange Properties.

Section Facts.
Context {env : Env}.

(** ** Every run that returns, with what made it take its path *)

Lemma removeInvalidBids_run request seatBid st errs st' :
  removeInvalidBids request seatBid st = Ok (errs, st') ->
  ((seatBid = null
    \/ exists sl, seatBid = addr sl /\ len (Bids (seatbids st sl)) = 0)
   /\ errs = nil_slice /\ st' = st)
  \/ (exists rl sl,
        request = addr rl /\ seatBid = addr sl
        /\ len (Bids (seatbids st sl)) <> 0
        /\ is_error (validateCurrency (Cur (requests st rl))
                                      (Currency (seatbids st sl))) = true
        /\ errs = mk_slice [validateCurrency (Cur (requests st rl))
                                             (Currency (seatbids st sl))]
        /\ st' = assign_Bids sl nil_slice
                   (logged (call_validateCurrency
                              (Cur (requests st rl))
                              (Currency (seatbids st sl))) st))
  \/ (exists rl sl,
        request = addr rl /\ seatBid = addr sl
        /\ len (Bids (seatbids st sl)) <> 0
        /\ validateCurrency (Cur (requests st rl))
                            (Currency (seatbids st sl)) = nil_error
        /\ no_nil (elems (Bids (seatbids st sl)))
        /\ errs = mk_slice
                    (map (rejection st)
                         (filter (fun bid => negb (accepted st bid))
                                 (elems (Bids (seatbids st sl)))))
        /\ st' = assign_Bids sl
                   (mk_slice (filter (accepted st)
                                     (elems (Bids (seatbids st sl)))))
                   (logged_all
                      (call_validateCurrency (Cur (requests st rl))
                                             (Currency (seatbids st sl))
                       :: map call_validateBid
                              (elems (Bids (seatbids st sl))))
                      st)).
Proof.
  intro Hrun.
  destruct seatBid as [|sl].
  - left. rewrite removeInvalidBids_nil in Hrun. injection Hrun as <- <-.
    split; [now left | split; reflexivity].
  - destruct (Nat.eq_dec (len (Bids (seatbids st sl))) 0) as [Hlen|Hlen].
    + left. rewrite removeInvalidBids_no_bids in Hrun by assumption.
      injection Hrun as <- <-.
      split; [right; now exists sl | split; reflexivity].
    + destruct request as [|rl];
        [now rewrite removeInvalidBids_nil_request in Hrun|].
      destruct (validateCurrency (Cur (requests st rl))
                                 (Currency (seatbids st sl))) eqn:Hcur.
      * destruct (no_nil_dec (elems (Bids (seatbids st sl)))) as [Hnn|Hin];
          [|now rewrite removeInvalidBids_nil_element in Hrun].
        right; right. exists rl, sl.
        rewrite removeInvalidBids_fields in Hrun by assumption.
        rewrite Hcur. injection Hrun as <- <-. now repeat split.
      * right; left. exists rl, sl.
        rewrite removeInvalidBids_currency in Hrun
          by (try assumption; now rewrite Hcur).
        rewrite Hcur in *. injection Hrun as <- <-. now repeat split.
Qed.

(** ** The verdict of the currency check *)

Lemma range_allowed_true code l :
  range_allowed code l false = true
  <-> exists a, In a l /\ ToUpper unicode_upper a = code.
Proof.
  induction l as [|a l IH]; cbn.
  - split; [discriminate | intros [a [[] _]]].
  - destruct (String.eqb (ToUpper unicode_upper a) code) eqn:E.
    + apply String.eqb_eq in E. split; [|reflexivity].
      intros _. exists a. split; [now left | assumption].
    + apply String.eqb_neq in E. rewrite IH. split.
      * intros [b [Hin Hb]]. exists b. split; [now right | assumption].
      * intros [b [[<-|Hin] Hb]]; [contradiction|]. now exists b.
Qed.

Lemma validateCurrency_parsed cur c u :
  ParseISO (if is_empty c then "USD" else c) = (u, nil_error) ->
  (validateCurrency cur c = nil_error
   <-> range_allowed (Unit_String u) (accepted_codes cur) false = true).
Proof.
  intro Hparse. unfold validateCurrency. rewrite Hparse. cbn [is_error].
  unfold accepted_codes.
  destruct (Nat.eqb (len cur) 0); cbn [elems];
    destruct (range_allowed _ _ _); cbn [Bool.eqb];
    split; intro H; try reflexivity; discriminate.
Qed.

(** X1.  A bid currency that parses to the unit [u] is let through exactly
    when some accepted code (the codes of the request, or USD alone when the
    request lists none) upper-cases to the code of [u].  The comparison is
    thus blind to the case of the accepted codes. *)
Theorem X1_currency_accepted_iff_listed cur c u :
  ParseISO (if is_empty c then "USD" else c) = (u, nil_error) ->
  (validateCurrency cur c = nil_error
   <-> exists a,
        In a (accepted_codes cur)
        /\ ToUpper unicode_upper a = Unit_String u).
Proof.
  intro Hparse.
  rewrite (validateCurrency_parsed cur c Hparse).
  apply range_allowed_true.
Qed.

Lemma accepted_codes_same cur cur' :
  (forall a, In a (elems cur) <-> In a (elems cur')) ->
  forall a, In a (accepted_codes cur) <-> In a (accepted_codes cur').
Proof.
  intros H a. unfold accepted_codes, len.
  destruct (elems cur) as [|x l]; destruct (elems cur') as [|x' l'];
    cbn [length Nat.eqb].
  - reflexivity.
  - exfalso. apply (H x'). now left.
  - exfalso. apply (H x). now left.
  - apply H.
Qed.

(** X2.  Whether a bid currency is let through depends on the accepted
    list only through the set of its codes: two lists with the same
    elements, in any order and with any repetition (a nil and an empty
    list among them), give the same verdict. *)
Theorem X2_currency_verdict_ignores_order cur cur' c :
  (forall a, In a (elems cur) <-> In a (elems cur')) ->
  is_error (validateCurrency cur c) = is_error (validateCurrency cur' c).
Proof.
  intro Hsame.
  destruct (ParseISO (if is_empty c then "USD" else c)) as [u cerr] eqn:Hparse.
  destruct cerr as [|msg].
  - pose proof (validateCurrency_parsed cur c Hparse) as H1.
    pose proof (validateCurrency_parsed cur' c Hparse) as H2.
    assert (Hr : range_allowed (Unit_String u) (accepted_codes cur) false
                 = true
                 <-> range_allowed (Unit_String u) (accepted_codes cur') false
                     = true).
    { rewrite !range_allowed_true.
      split; intros [a [Hin Ha]]; exists a;
        (split; [apply (accepted_codes_same cur cur' Hsame); exact Hin
                | exact Ha]). }
    assert (Hiff : validateCurrency cur c = nil_error
                   <-> validateCurrency cur' c = nil_error).
    { apply (iff_trans H1). apply (iff_trans Hr). apply iff_sym. exact H2. }
    clear H1 H2 Hr Hparse.
    destruct (validateCurrency cur c) as [|m1];
      destruct (validateCurrency cur' c) as [|m2]; cbn [is_error];
      try reflexivity.
    + destruct Hiff as [Hiff _]. specialize (Hiff eq_refl). discriminate.
    + destruct Hiff as [_ Hiff]. specialize (Hiff eq_refl). discriminate.
  - unfold validateCurrency. rewrite Hparse. cbn iota beta.
    cbn [is_error]. reflexivity.
Qed.

(** ** Lists and stores *)

Lemma filter_all {A} (f : A -> bool) (l : list A) :
  filter (fun x => negb (f x)) l = [] <-> filter f l = l.
Proof.
  split.
  - induction l as [|x l IH]; cbn; [reflexivity|].
    destruct (f x); cbn; [|discriminate].
    intro H. now rewrite IH.
  - intro H. pose proof (filter_split_length f l) as Hlen.
    rewrite H in Hlen.
    destruct (filter (fun x => negb (f x)) l); [reflexivity|].
    cbn in Hlen. lia.
Qed.

Lemma filter_twice {A} (f : A -> bool) (l : list A) :
  filter f (filter f l) = filter f l.
Proof.
  induction l as [|x l IH]; cbn; [reflexivity|].
  destruct (f x) eqn:E; cbn; [rewrite E, IH|]; auto.
Qed.

Lemma accepted_same_heap st st' bid :
  pbsbids st' = pbsbids st -> bids st' = bids st ->
  accepted st' bid = accepted st bid.
Proof.
  intros Hp Hb. destruct bid as [|l]; [reflexivity|].
  unfold accepted, validateBid, bind, load, ret. rewrite Hp.
  destruct (Bid (pbsbids st l)); simpl; [reflexivity|].
  rewrite Hb.
  repeat match goal with
         | |- context [if ?b then _ else _] => destruct b; simpl
         end; reflexivity.
Qed.

Lemma accepted_no_nil st l : no_nil (filter (accepted st) l).
Proof.
  apply Forall_forall. intros bid Hin. apply filter_In in Hin.
  destruct Hin as [_ Hacc]. destruct bid; [discriminate|discriminate].
Qed.

Lemma same_heap_refl st : same_heap st st.
Proof. now repeat split. Qed.

(** The store a run leaves when it writes the bid list [v]. *)
Lemma written_store sl v cs st :
  let st' := assign_Bids sl v (logged_all cs st) in
  requests st' = requests st
  /\ pbsbids st' = pbsbids st
  /\ bids st' = bids st
  /\ seatbids st' sl = set_Bids v (seatbids st sl)
  /\ calls st' = (calls st ++ cs)%list.
Proof.
  destruct (logged_all_heap cs st) as [Hr [Hs [Hp Hb]]].
  cbn. rewrite Nat.eqb_refl, Hr, Hs, Hp, Hb, logged_all_calls.
  now repeat split.
Qed.

(** ** Running the sanitizer again *)

Lemma removeInvalidBids_again request seatBid st errs st' :
  removeInvalidBids request seatBid st = Ok (errs, st') ->
  exists errs2 st2,
    removeInvalidBids request seatBid st' = Ok (errs2, st2)
    /\ len errs2 = 0
    /\ same_heap st' st2.
Proof.
  intro Hrun.
  destruct (removeInvalidBids_run _ _ _ Hrun)
    as [[_ [-> ->]]
       |[[rl [sl [-> [-> [Hlen [Hcur [-> ->]]]]]]]
        |[rl [sl [-> [-> [Hlen [Hcur [Hnn [-> ->]]]]]]]]]].
  - exists nil_slice, st. split; [assumption|].
    split; [reflexivity | apply same_heap_refl].
  - eexists nil_slice, _. split.
    + apply removeInvalidBids_no_bids. now rewrite seatbids_assign.
    + split; [reflexivity | apply same_heap_refl].
  - set (l := elems (Bids (seatbids st sl))) in *.
    set (cs := call_validateCurrency _ _ :: _).
    set (st' := assign_Bids sl (mk_slice (filter (accepted st) l))
                            (logged_all cs st)).
    destruct (written_store sl (mk_slice (filter (accepted st) l)) cs st)
      as [Hr [Hp [Hb [Hs _]]]].
    fold st' in Hr, Hp, Hb, Hs.
    destruct (filter (accepted st) l) as [|bid kept] eqn:Hkept.
    + eexists nil_slice, _. split.
      * apply removeInvalidBids_no_bids. now rewrite Hs.
      * split; [reflexivity | apply same_heap_refl].
    + assert (Hacc : forall b, accepted st' b = accepted st b)
        by (intro; now apply accepted_same_heap).
      assert (Hsame : filter (accepted st') (bid :: kept) = bid :: kept).
      { rewrite (filter_ext _ _ Hacc), <- Hkept. apply filter_twice. }
      do 2 eexists. split.
      * apply removeInvalidBids_fields.
        -- rewrite Hs. discriminate.
        -- rewrite Hr, Hs. exact Hcur.
        -- rewrite Hs. cbn [set_Bids Bids elems].
           rewrite <- Hkept. apply accepted_no_nil.
      * rewrite Hs. cbn [set_Bids Bids elems Currency].
        apply filter_all in Hsame as Hnone. rewrite Hnone, Hsame.
        split; [reflexivity|].
        match goal with
        | |- same_heap _ (assign_Bids ?a ?v (logged_all ?c ?s)) =>
            destruct (logged_all_heap c s) as [Hr2 [Hs2 [Hp2 Hb2]]]
        end.
        unfold same_heap. cbn [assign_Bids requests pbsbids bids seatbids].
        rewrite Hr2, Hs2, Hp2, Hb2. repeat split.
        intro l0. destruct (Nat.eqb l0 sl) eqn:E; [|reflexivity].
        apply Nat.eqb_eq in E. subst l0. rewrite Hs. reflexivity.
Qed.

(** X3.  Sanitizing is idempotent: after a run that returns, a second run
    on the same request and seat bid returns too, reports no error and
    leaves every object of the store as the first run left it. *)
Theorem X3_sanitizing_twice_changes_nothing request seatBid st errs st' :
  removeInvalidBids request seatBid st = Ok (errs, st') ->
  exists errs2 st2,
    removeInvalidBids request seatBid st' = Ok (errs2, st2)
    /\ len errs2 = 0
    /\ same_heap st' st2.
Proof. apply removeInvalidBids_again. Qed.

(** X4.  Decorating twice is decorating once: whenever the decorated
    bidder returns, the doubly decorated one returns the same seat bid and
    the same error list, and leaves the same objects in the store. *)
Theorem X4_decorating_twice
        (B : Type) (wrapped : AdaptedBidder B) (b : B)
        ctx request name bidAdjustment conversions st seatBid errs st1 :
  RequestBid (ensureValidBids b) ctx request name bidAdjustment conversions st
  = Ok ((seatBid, errs), st1) ->
  exists st2,
    RequestBid (ensureValidBids (ensureValidBids b))
               ctx request name bidAdjustment conversions st
    = Ok ((seatBid, errs), st2)
    /\ same_heap st1 st2.
Proof.
  intro Hinner.
  assert (Hsan : exists st0, removeInvalidBids request seatBid st0
                             = Ok (match removeInvalidBids request seatBid st0
                                   with Ok (v, _) => v | Panic => nil_slice end,
                                   st1)).
  { unfold RequestBid, validatedBidder_RequestBid, bind, ret in Hinner.
    cbn [ensureValidBids bidder] in Hinner.
    destruct (RequestBid b ctx request name bidAdjustment conversions st)
      as [[[sb e0] s0]|]; [|discriminate].
    cbn [fst snd] in Hinner.
    destruct (removeInvalidBids request sb s0) as [[verrs s1]|] eqn:Hsan;
      [|discriminate].
    injection Hinner as <- _ <-. exists s0. now rewrite Hsan. }
  destruct Hsan as [st0 Hsan].
  destruct (removeInvalidBids_again _ _ _ Hsan) as [errs2 [st2 [H2 [Hnone Hheap]]]].
  exists st2. split; [|assumption].
  change (RequestBid (ensureValidBids (ensureValidBids b)) ctx request name
                     bidAdjustment conversions st)
    with (bind (RequestBid (ensureValidBids b) ctx request name
                           bidAdjustment conversions)
               (fun r =>
                  bind (removeInvalidBids request (fst r))
                       (fun validationErrors =>
                          ret (fst r,
                               if Nat.ltb 0 (len validationErrors)
                               then append (snd r) (elems validationErrors)
                               else snd r))) st).
  unfold bind at 1. rewrite Hinner. cbn [fst snd].
  unfold bind, ret. rewrite H2, Hnone. reflexivity.
Qed.

(** ** What a run that returns has established *)

Lemma checked_well_formed st bid : checked st bid -> well_formed st bid.
Proof.
  intros [l [o [Hbid [Hpay [Hid [Himp [Hprice Hcr]]]]]]].
  exists l, o. repeat split; try assumption.
  unfold positive_price.
  destruct (Price o) eqn:E; [right|right|now left|right];
    apply not_le_zero_positive; (discriminate || assumption).
Qed.

(** X5.  After a run that returns, every bid left in the seat bid has a
    payload with a non-empty id, impression id and creative id, and a price
    that is above zero or is not a number. *)
Theorem X5_survivors_are_well_formed request sl st errs st' :
  removeInvalidBids request (addr sl) st = Ok (errs, st') ->
  Forall (well_formed st') (elems (Bids (seatbids st' sl))).
Proof.
  intro Hrun. apply survivors_checked in Hrun.
  eapply Forall_impl; [|exact Hrun].
  intro bid. apply checked_well_formed.
Qed.

(** X6.  A run that returns never reports a nil error, and never reports
    more than it removes: the bids left and the errors returned together
    number at most the bids given. *)
Theorem X6_errors_account_for_dropped_bids request sl st errs st' :
  removeInvalidBids request (addr sl) st = Ok (errs, st') ->
  Forall (fun e => is_error e = true) (elems errs)
  /\ len (Bids (seatbids st' sl)) + len errs <= len (Bids (seatbids st sl)).
Proof.
  intro Hrun.
  destruct (removeInvalidBids_run _ _ _ Hrun)
    as [[_ [-> ->]]
       |[[rl [sl' [-> [E [Hlen [Hcur [-> ->]]]]]]]
        |[rl [sl' [-> [E [Hlen [Hcur [Hnn [-> ->]]]]]]]]]];
    try (injection E as <-).
  - split; [constructor | unfold len; cbn; lia].
  - rewrite seatbids_assign. split; [now repeat constructor|].
    unfold len in *. cbn. lia.
  - rewrite seatbids_assign. cbn [set_Bids Bids]. split.
    + apply Forall_forall. intros e He. cbn [elems] in He.
      apply in_map_iff in He. destruct He as [bid [<- Hbid]].
      apply filter_In in Hbid. destruct Hbid as [Hin Hrej].
      destruct bid as [|l]; [now apply no_nil_not_in in Hin|].
      apply rejection_is_error. now destruct (accepted st (addr l)).
    + unfold len. cbn [elems]. rewrite length_map.
      now rewrite filter_split_length.
Qed.

(** X9.  A run that returns reports no error exactly when it leaves the
    bid list element for element as it was. *)
Theorem X9_no_error_iff_nothing_dropped request sl st errs st' :
  removeInvalidBids request (addr sl) st = Ok (errs, st') ->
  (len errs = 0
   <-> elems (Bids (seatbids st' sl)) = elems (Bids (seatbids st sl))).
Proof.
  intro Hrun.
  destruct (removeInvalidBids_run _ _ _ Hrun)
    as [[_ [-> ->]]
       |[[rl [sl' [-> [E [Hlen [Hcur [-> ->]]]]]]]
        |[rl [sl' [-> [E [Hlen [Hcur [Hnn [-> ->]]]]]]]]]];
    try (injection E as <-).
  - split; reflexivity.
  - rewrite seatbids_assign. cbn [set_Bids Bids elems]. unfold len in *.
    split; [discriminate|].
    intro H. rewrite <- H in Hlen. now elim Hlen.
  - rewrite seatbids_assign. cbn [set_Bids Bids elems]. unfold len.
    cbn [elems]. rewrite length_map, <- filter_all. split.
    + intro H. now apply length_zero_iff_nil.
    + intros ->. reflexivity.
Qed.

(** ** When the sanitizer panics *)

(** X7.  [removeInvalidBids] panics in exactly two situations, both on a
    seat bid that has bids: the request pointer is nil; or the currency is
    accepted and the bid list holds a nil pointer.  In every other case it
    returns. *)
Theorem X7_panics_exactly_when request seatBid st :
  removeInvalidBids request seatBid st = Panic
  <-> exists sl,
      seatBid = addr sl
      /\ len (Bids (seatbids st sl)) <> 0
      /\ (request = null
          \/ exists rl,
              request = addr rl
              /\ validateCurrency (Cur (requests st rl))
                                  (Currency (seatbids st sl)) = nil_error
              /\ In null (elems (Bids (seatbids st sl)))).
Proof.
  split.
  - intro Hpanic.
    destruct seatBid as [|sl];
      [now rewrite removeInvalidBids_nil in Hpanic|].
    destruct (Nat.eq_dec (len (Bids (seatbids st sl))) 0) as [Hlen|Hlen];
      [now rewrite removeInvalidBids_no_bids in Hpanic|].
    exists sl. do 2 (split; [trivial|]).
    destruct request as [|rl]; [now left|]. right. exists rl.
    split; [reflexivity|].
    destruct (validateCurrency (Cur (requests st rl))
                               (Currency (seatbids st sl))) eqn:Hcur.
    + split; [reflexivity|].
      destruct (no_nil_dec (elems (Bids (seatbids st sl)))) as [Hnn|Hin];
        [|assumption].
      now rewrite removeInvalidBids_fields in Hpanic.
    + rewrite removeInvalidBids_currency in Hpanic;
        [discriminate | assumption | now rewrite Hcur].
  - intros [sl [-> [Hlen [->|[rl [-> [Hcur Hin]]]]]]].
    + now apply removeInvalidBids_nil_request.
    + now apply removeInvalidBids_nil_element.
Qed.

(** ** The decorator on a seat bid without bids *)

(** X8.  When the wrapped bidder answers with no seat bid, or with one
    that has no bids, the decorator hands back exactly what it got: the
    same pointer, the same error slice and the same store, whatever the
    request pointer is. *)
Theorem X8_decorator_passes_through
        (B : Type) (wrapped : AdaptedBidder B) (b : B)
        ctx request name bidAdjustment conversions st seatBid errs st1 :
  RequestBid b ctx request name bidAdjustment conversions st
  = Ok ((seatBid, errs), st1) ->
  seatBid = null
  \/ (exists sl, seatBid = addr sl /\ len (Bids (seatbids st1 sl)) = 0) ->
  RequestBid (ensureValidBids b) ctx request name bidAdjustment conversions st
  = Ok ((seatBid, errs), st1).
Proof.
  intros Hwrapped Hnone.
  change (RequestBid (ensureValidBids b) ctx request name
                     bidAdjustment conversions st)
    with (bind (RequestBid b ctx request name bidAdjustment conversions)
               (fun r =>
                  bind (removeInvalidBids request (fst r))
                       (fun validationErrors =>
                          ret (fst r,
                               if Nat.ltb 0 (len validationErrors)
                               then append (snd r) (elems validationErrors)
                               else snd r))) st).
  unfold bind at 1. rewrite Hwrapped. cbn [fst snd]. unfold bind, ret.
  destruct Hnone as [->|[sl [-> Hlen]]].
  - now rewrite removeInvalidBids_nil.
  - now rewrite removeInvalidBids_no_bids.
Qed.

(** ** The order of the checks *)

(** X10.  On a seat bid with bids, none of them nil, whose currency is
    accepted, a run invokes [validateCurrency] once, first, and then
    [validateBid] once on each bid of the list, in the order of the list,
    the bids it turns down included. *)
Theorem X10_each_bid_validated_once_in_order rl sl st :
  len (Bids (seatbids st sl)) <> 0 ->
  validateCurrency (Cur (requests st rl)) (Currency (seatbids st sl))
  = nil_error ->
  no_nil (elems (Bids (seatbids st sl))) ->
  exists errs st',
    removeInvalidBids (addr rl) (addr sl) st = Ok (errs, st')
    /\ calls st'
       = (calls st
          ++ call_validateCurrency (Cur (requests st rl))
                                   (Currency (seatbids st sl))
          :: map call_validateBid (elems (Bids (seatbids st sl))))%list.
Proof.
  intros Hlen Hcur Hnn. do 2 eexists.
  split; [now apply removeInvalidBids_fields|].
  cbn [assign_Bids calls]. apply logged_all_calls.
Qed.

End Facts.

(* ------------------------------------------------------------------ *)
(** ** Runs on the sample store *)

Import Sample.
#[local] Existing Instance Sample.env.

Lemma X1_witness :
  validateCurrency (mk_slice ["eur"; "GBP"; "usd"]) "usd" = nil_error
  <-> exists a,
      In a (accepted_codes (mk_slice ["eur"; "GBP"; "usd"]))
      /\ ToUpper unicode_upper a = "USD".
Proof.
  apply (@X1_currency_accepted_iff_listed
           Sample.env (mk_slice ["eur"; "GBP"; "usd"]) "usd" "USD").
  reflexivity.
Defined.

Lemma X2_witness :
  is_error (validateCurrency (mk_slice ["EUR"; "USD"]) "JPY")
  = is_error (validateCurrency (mk_slice ["USD"; "EUR"; "USD"]) "JPY").
Proof.
  apply (@X2_currency_verdict_ignores_order Sample.env).
  intro a. cbn. tauto.
Defined.

Lemma X3_witness :
  exists errs2 st2,
    removeInvalidBids (addr 0) (addr 0) st0_sanitized = Ok (errs2, st2)
    /\ len errs2 = 0
    /\ same_heap st0_sanitized st2.
Proof.
  apply (@X3_sanitizing_twice_changes_nothing
           Sample.env (addr 0) (addr 0) st0
           (mk_slice [rejection st0 (addr 1)]) st0_sanitized).
  reflexivity.
Defined.

Lemma X4_witness :
  exists st2,
    RequestBid
      (ensureValidBids
         (ensureValidBids
            {| seat := addr 0;
               transport_errs := mk_slice [errors_New "timeout"] |}))
      tt (addr 0) "appnexus" zero tt st0
    = Ok ((addr 0,
           mk_slice [errors_New "timeout"; rejection st0 (addr 1)]), st2)
    /\ same_heap st0_sanitized st2.
Proof.
  apply (@X4_decorating_twice
           Sample.env fixedBidder fixedBidder_RequestBid
           {| seat := addr 0;
              transport_errs := mk_slice [errors_New "timeout"] |}
           tt (addr 0) "appnexus" zero tt st0).
  reflexivity.
Defined.

Lemma X5_witness :
  Forall (well_formed st0_sanitized) (elems (Bids (seatbids st0_sanitized 0))).
Proof.
  apply (@X5_survivors_are_well_formed
           Sample.env (addr 0) 0 st0
           (mk_slice [rejection st0 (addr 1)]) st0_sanitized).
  reflexivity.
Defined.

Lemma X6_witness :
  Forall (fun e => is_error e = true) [rejection st0 (addr 1)]
  /\ len (Bids (seatbids st0_sanitized 0)) + 1 <= len (Bids (seatbids st0 0)).
Proof.
  apply (@X6_errors_account_for_dropped_bids
           Sample.env (addr 0) 0 st0
           (mk_slice [rejection st0 (addr 1)]) st0_sanitized).
  reflexivity.
Defined.

Lemma X7_witness :
  removeInvalidBids null (addr 1) st0 = Panic.
Proof.
  apply (@X7_panics_exactly_when Sample.env).
  exists 1. split; [reflexivity|]. split; [discriminate|]. now left.
Defined.

Lemma X8_witness :
  RequestBid
    (ensureValidBids
       {| seat := null; transport_errs := mk_slice [errors_New "timeout"] |})
    tt null "appnexus" zero tt st0
  = Ok ((null, mk_slice [errors_New "timeout"]), st0).
Proof.
  apply (@X8_decorator_passes_through
           Sample.env fixedBidder fixedBidder_RequestBid).
  - reflexivity.
  - now left.
Defined.

Lemma X9_witness :
  1 = 0
  <-> elems (Bids (seatbids st0_sanitized 0)) = elems (Bids (seatbids st0 0)).
Proof.
  apply (@X9_no_error_iff_nothing_dropped
           Sample.env (addr 0) 0 st0
           (mk_slice [rejection st0 (addr 1)]) st0_sanitized).
  reflexivity.
Defined.

Lemma X10_witness :
  exists errs st',
    removeInvalidBids (addr 0) (addr 0) st0 = Ok (errs, st')
    /\ calls st'
       = [call_validateCurrency (mk_slice ["USD"]) EmptyString;
          call_validateBid (addr 0); call_validateBid (addr 1)].
Proof.
  apply (@X10_each_bid_validated_once_in_order Sample.env 0 0 st0).
  - discriminate.
  - reflexivity.
  - repeat constructor; discriminate.
Defined.

End Extra.
